(** * Zero2WTestMax: the command-line driver of a chain of MAX7219 displays

    The program is one function, [main] of [src/main.cpp]: it loads the
    persisted state of every display module, applies at most one command,
    saves the changed module and sends the chain's data to the bus.

    [main] is embedded as a computation in a small state-and-error monad over
    a [World]: the state file on disk, the in-memory store [config], the
    device [max], the bus and the list of calls [main] has made so far.

    The device class, the state store and the two state synchroniser
    functions live in a library that [main.cpp] only includes; they are
    modelled from the specification and marked as such.

    [config.log] and the messages of verbose mode only print; they are left
    out.  The diagnostics [main] prints in every mode are recorded as
    [EvCerr] calls. *)

From Stdlib Require Import ZArith String Ascii Decimal DecimalZ DecimalString Lia.
From stdpp Require Import gmap strings list fin_maps.

Local Open Scope Z_scope.

(** ** Machine integers *)

Module Int.

Definition INT_MIN : Z := - 2 ^ 31.
Definition INT_MAX : Z := 2 ^ 31 - 1.

(** Two's complement wrap-around of a C [int]. *)
Definition wrap_int (z : Z) : Z := (z + 2 ^ 31) mod 2 ^ 32 - 2 ^ 31.

(** [static_cast<unsigned>(z)]. *)
Definition to_unsigned (z : Z) : Z := z mod 2 ^ 32.

(** Wrap-around of a [uint8_t]. *)
Definition wrap_uint8 (z : Z) : Z := z mod 256.

Definition in_int (z : Z) : Prop := INT_MIN <= z <= INT_MAX.

End Int.

Import Int.

(** ** The C and C++ library functions [main] calls *)

(** [std::to_string(int)]: decimal digits, with a minus sign when negative. *)
Definition to_string (n : Z) : string := NilZero.string_of_int (Z.to_int n).

Definition is_space (c : ascii) : bool :=
  let n := N_of_ascii c in
  (N.eqb n 32 || (N.leb 9 n && N.leb n 13))%bool.

Definition digit_of (c : ascii) : option Z :=
  let n := Z.of_N (N_of_ascii c) in
  if (48 <=? n) && (n <=? 57) then Some (n - 48) else None.

Fixpoint skip_spaces (s : string) : string :=
  match s with
  | String c r => if is_space c then skip_spaces r else s
  | EmptyString => s
  end.

Fixpoint atoi_digits (s : string) (acc : Z) : Z :=
  match s with
  | String c r =>
      match digit_of c with
      | Some d => atoi_digits r (10 * acc + d)
      | None => acc
      end
  | EmptyString => acc
  end.

(** [atoi]: leading white space, an optional sign, then the longest run of
    digits; [0] when there is none.  A value that does not fit an [int] is
    undefined behaviour in C; here it wraps around. *)
Definition atoi (s : string) : Z :=
  match skip_spaces s with
  | String "-" r => wrap_int (- atoi_digits r 0)
  | String "+" r => wrap_int (atoi_digits r 0)
  | r => wrap_int (atoi_digits r 0)
  end.

(** ** [moduleName] (main.cpp, lines 50-52) *)

Definition sectionPrefix : string := "display".

(** ["display:" + std::to_string(num+1)] *)
Definition moduleName (num : Z) : string :=
  "display:" +:+ to_string (wrap_int (num + 1)).

(** The section name as the specification words it: the prefix, a colon and
    the 1-based module number. *)
Definition spec_section_name (pfx : string) (index : Z) : string :=
  pfx +:+ ":" +:+ NilZero.string_of_uint (N.to_uint (Z.to_N index + 1)).

(** ** The command words (main.cpp, lines 40-48) *)

Definition optVerbose : string := "-v".
Definition cmdReset : string := "reset".
Definition cmdSet : string := "set".
Definition cmdBrightness : string := "brightness".
Definition cmdSync : string := "sync".
Definition cmdClear : string := "clear".
Definition cmdOn : string := "on".
Definition cmdOff : string := "off".

(** ** Errors, results and the monad *)

(** The error taxonomy of the specification (section 7). *)
Inductive Error :=
| OutOfRange
| InvalidArgument
| ParseError
| TransportError
| StoreError.

(** How a piece of [main] ends: it falls through with a value, executes
    [return status], lets an exception escape, or never ends. *)
Inductive Res (A : Type) :=
| Ok (a : A)
| Return (status : Z)
| Throw (e : Error)
| Diverge.

Arguments Ok {A} a.
Arguments Return {A} status.
Arguments Throw {A} e.
Arguments Diverge {A}.

(** ** Data model *)

(** One chip position of the chain (specification, section 3). *)
Record DisplayModule := mkModule {
  value : option Z;
  hasValue : bool;
  brightness : Z;
  powered : bool;
  dirty : bool
}.

(** What one chip is made to show by a bus write. *)
Record Frame := mkFrame {
  digits : option Z;
  intensity : Z;
  shutdown : bool
}.

Inductive BusWrite :=
| WriteAll (frames : list Frame)
| WriteOne (index : Z) (frame : Frame).

Record Chain := mkChain {
  modules : list DisplayModule;
  immediateWrite : bool;
  flushed : bool
}.

Record IniState := mkIniState {
  sections : gmap string (gmap string string);
  isDirty : bool
}.

(** The lines [main] writes to [std::cerr] outside verbose mode. *)
Inductive Diag :=
| InvalidModuleNumber (num : Z)
| BrightnessOutOfRange (level : Z)
| Usage (prog cmd : string)
| UnknownCommand (cmd : string)
| ErrorWhat (e : Error).

(** The calls [main] makes on its collaborators, in program order. *)
Inductive Event :=
| EvCfgVerbose (b : bool)
| EvCfgLoad
| EvAddSPI (name : string)
| EvSpiVerbose (b : bool)
| EvSpiBaudRate (hz : Z)
| EvSpiDevice
| EvNumDevices (count : Z)
| EvWriteImmediately (b : bool)
| EvLoadState (name : string) (index : Z)
| EvSetClean
| EvReset
| EvSetDirty
| EvSetNumber (num val : Z)
| EvClear (num : Z)
| EvSetBrightness (num level : Z)
| EvSaveState (name : string) (num : Z)
| EvMarkDirty
| EvCfgSave
| EvSendData
| EvCerr (d : Diag).

Record World := mkWorld {
  disk : gmap string (gmap string string);
  config : IniState;
  max : Chain;
  bus : list BusWrite;
  trace : list Event
}.

#[global] Instance Error_eq_dec : EqDecision Error.
Proof. solve_decision. Defined.
#[global] Instance DisplayModule_eq_dec : EqDecision DisplayModule.
Proof. solve_decision. Defined.
#[global] Instance Frame_eq_dec : EqDecision Frame.
Proof. solve_decision. Defined.
#[global] Instance Diag_eq_dec : EqDecision Diag.
Proof. solve_decision. Defined.
#[global] Instance Event_eq_dec : EqDecision Event.
Proof. solve_decision. Defined.

Definition M (A : Type) : Type := World -> Res A * World.

#[global] Instance M_ret : MRet M := fun A a w => (Ok a, w).

#[global] Instance M_bind : MBind M := fun A B f m w =>
  match m w with
  | (Ok a, w') => f a w'
  | (Return c, w') => (Return c, w')
  | (Throw e, w') => (Throw e, w')
  | (Diverge, w') => (Diverge, w')
  end.

Definition throw {A} (e : Error) : M A := fun w => (Throw e, w).
Definition exit {A} (status : Z) : M A := fun w => (Return status, w).
Definition diverge {A} : M A := fun w => (Diverge, w).

Definition get_max : M Chain := fun w => (Ok (max w), w).
Definition get_config : M IniState := fun w => (Ok (config w), w).

Definition put_max (c : Chain) : M unit := fun w =>
  (Ok tt, mkWorld (disk w) (config w) c (bus w) (trace w)).
Definition put_config (s : IniState) : M unit := fun w =>
  (Ok tt, mkWorld (disk w) s (max w) (bus w) (trace w)).
Definition put_disk (d : gmap string (gmap string string)) : M unit := fun w =>
  (Ok tt, mkWorld d (config w) (max w) (bus w) (trace w)).
Definition get_disk : M (gmap string (gmap string string)) := fun w =>
  (Ok (disk w), w).
Definition bus_send (b : BusWrite) : M unit := fun w =>
  (Ok tt, mkWorld (disk w) (config w) (max w) (bus w ++ [b]) (trace w)).
Definition emit (e : Event) : M unit := fun w =>
  (Ok tt, mkWorld (disk w) (config w) (max w) (bus w) (trace w ++ [e])).

(** A call of [main] on a collaborator: the call is recorded, then made. *)
Definition call {A} (e : Event) (op : M A) : M A := emit e ;; op.

(** [try { body } catch (const std::exception& e) { cerr << ...; return -1; }] *)
Definition try_catch (body : M unit) : M unit := fun w =>
  match body w with
  | (Throw e, w') => (emit (EvCerr (ErrorWhat e)) ;; exit (-1)) w'
  | r => r
  end.

(** ** A concrete installation, for the examples *)

Module Installation.

(** A store that configures two modules and holds the state of the second. *)
Definition file : gmap string (gmap string string) :=
  {[ "interface:spi-0" := {[ "modules" := "2" ]};
     "display:2" := {[ "value" := "7"; "brightness" := "3" ]} ]}.

(** A transport that takes every write. *)
Definition accept (b : BusWrite) : bool := true.

(** A [reset] that leaves the modules alone. *)
Definition noReset (ms : list DisplayModule) : list DisplayModule := ms.

Definition fuel : nat := 300.

End Installation.

(** ** The library behind [main], modelled from the specification *)

Section Driver.

(** The brightness a module has before anything sets it. *)
Variable defaultBrightness : Z.

(** The write mode of a freshly made device. *)
Variable immediateDefault : bool.

(** What [reset] does to the modules; the specification is silent on it. *)
Variable resetModules : list DisplayModule -> list DisplayModule.

(** Whether the transport accepts a write; a write is atomic. *)
Variable busAccepts : BusWrite -> bool.

(** *** Chain Device (specification, section 4.1) *)

(** Modelled from the spec: the state of a module nothing has touched
    (unset value, default brightness, powered); the library's constructor
    is missing. *)
Definition defaultModule : DisplayModule :=
  mkModule None false defaultBrightness true false.

(** Modelled from the spec: a device is created empty; the constructor of
    [LocalMAX7219] is missing. *)
Definition newChain : Chain := mkChain [] immediateDefault false.

Definition numDevices (c : Chain) : Z := Z.of_nat (length (modules c)).

Definition valid_index (c : Chain) (index : Z) : bool :=
  (0 <=? index) && (index <? numDevices c).

(** Modelled from the spec: the rendered state of a module; a module
    without a value is blank whatever [value] holds.  The register
    encoding is missing. *)
Definition render (m : DisplayModule) : Frame :=
  mkFrame (if hasValue m then value m else None) (brightness m)
          (negb (powered m)).

Definition set_dirty (d : bool) (m : DisplayModule) : DisplayModule :=
  mkModule (value m) (hasValue m) (brightness m) (powered m) d.

(** Modelled from the spec: [setValue] on one module; dirty unless the
    value is the one already shown. *)
Definition module_setValue (v : Z) (m : DisplayModule) : DisplayModule :=
  mkModule (Some v) true (brightness m) (powered m)
           (if bool_decide (value m = Some v) && hasValue m
            then dirty m else true).

(** Modelled from the spec: [clear] on one module; dirty unless already
    clear. *)
Definition module_clear (m : DisplayModule) : DisplayModule :=
  mkModule (value m) false (brightness m) (powered m)
           (if hasValue m then true else dirty m).

(** Modelled from the spec: [setBrightness] on one module, the level
    already validated; dirty if changed. *)
Definition module_setBrightness (level : Z) (m : DisplayModule)
  : DisplayModule :=
  mkModule (value m) (hasValue m) level (powered m)
           (if bool_decide (brightness m = level) then dirty m else true).

(** Modelled from the spec: [setPower] on one module; dirty if changed. *)
Definition module_setPower (on : bool) (m : DisplayModule) : DisplayModule :=
  mkModule (value m) (hasValue m) (brightness m) on
           (if bool_decide (powered m = on) then dirty m else true).

Definition with_modules (ms : list DisplayModule) (c : Chain) : Chain :=
  mkChain ms (immediateWrite c) (flushed c).

(** Modelled from the spec: the common part of the per-module mutators.
    The index is validated first; with immediate writes on, the module's
    frame goes to the bus at once and the module is clean when the
    transport took it. *)
Definition mutate (index : Z) (f : DisplayModule -> DisplayModule) : M unit :=
  c ← get_max;
  if valid_index c index then
    match modules c !! Z.to_nat index with
    | Some m =>
        let m' := f m in
        if immediateWrite c then
          if busAccepts (WriteOne index (render m')) then
            bus_send (WriteOne index (render m'));;
            put_max (mkChain (<[Z.to_nat index := set_dirty false m']> (modules c))
                             true true)
          else
            put_max (with_modules (<[Z.to_nat index := m']> (modules c)) c);;
            throw TransportError
        else
          put_max (with_modules (<[Z.to_nat index := m']> (modules c)) c)
    | None => throw OutOfRange
    end
  else throw OutOfRange.

(** Modelled from the spec: [setValue(index, value)]; the device class is
    missing, [main] calls it [setNumber]. *)
Definition setNumber (index v : Z) : M unit :=
  mutate index (module_setValue v).

(** Modelled from the spec: [clear(index)]. *)
Definition clear (index : Z) : M unit :=
  mutate index module_clear.

(** Modelled from the spec: [setBrightness(index, level)]; the index is
    validated, then the level. *)
Definition setBrightness (index level : Z) : M unit :=
  c ← get_max;
  if valid_index c index then
    if (0 <=? level) && (level <=? 15)
    then mutate index (module_setBrightness level)
    else throw InvalidArgument
  else throw OutOfRange.

(** Modelled from the spec: [setPower(index, on)]. *)
Definition setPower (index : Z) (on : bool) : M unit :=
  mutate index (module_setPower on).

(** Modelled from the spec: [markAllClean()]; [main] calls it [setClean]. *)
Definition setClean : M unit :=
  c ← get_max;
  put_max (with_modules (set_dirty false <$> modules c) c).

(** Modelled from the spec: [markAllDirty()]; [main] calls it [setDirty]. *)
Definition setDirty : M unit :=
  c ← get_max;
  put_max (with_modules (set_dirty true <$> modules c) c).

(** Modelled from the spec: [setImmediateWrite(enabled)]; [main] calls it
    [writeImmediately].  A switch with no other effect. *)
Definition writeImmediately (enabled : bool) : M unit :=
  c ← get_max;
  put_max (mkChain (modules c) enabled (flushed c)).

(** Modelled from the spec: [resize(count)]; [main] calls it
    [numDevices(count)].  It fails after a flush and for a negative count;
    the sequence is cut or extended with untouched modules.  The
    specification does not name the error. *)
Definition resize_chain (count : Z) : M unit :=
  c ← get_max;
  if flushed c || (count <? 0) then throw InvalidArgument
  else put_max (with_modules (resize (Z.to_nat count) defaultModule (modules c)) c).

(** [reset()]: the specification does not describe it; it acts on the
    modules through [resetModules]. *)
Definition reset : M unit :=
  c ← get_max;
  put_max (with_modules (resetModules (modules c)) c).

(** Modelled from the spec: [flush()]; [main] calls it [sendData].  With
    immediate writes off, every module's frame, dirty or not, goes to the
    transport in one transaction, in index order; the dirty flags are
    cleared only when the transport took it. *)
Definition sendData : M unit :=
  c ← get_max;
  if immediateWrite c then mret tt
  else
    let tx := WriteAll (render <$> modules c) in
    if busAccepts tx then
      bus_send tx;;
      put_max (mkChain (set_dirty false <$> modules c) false true)
    else throw TransportError.

(** *** Persistent State Store (specification, sections 2 and 6) *)

(** Modelled from the spec: the store starts with no section and clean. *)
Definition emptyStore : IniState := mkIniState ∅ false.

(** Modelled from the spec: [load()] reads the file into memory. *)
Definition config_load : M unit :=
  d ← get_disk;
  put_config (mkIniState d false).

(** Modelled from the spec: [exists(section)]; [main] calls it [has]. *)
Definition config_has (name : string) : M bool :=
  s ← get_config;
  mret (bool_decide (is_Some (sections s !! name))).

(** Modelled from the spec: [exists(section, key)]. *)
Definition config_has_key (name key : string) : M bool :=
  s ← get_config;
  mret (bool_decide (is_Some (sections s !! name ≫= (.!! key)))).

(** Modelled from the spec: [config[name]], the section of that name,
    empty when there is none. *)
Definition section_of (s : IniState) (name : string) : gmap string string :=
  default ∅ (sections s !! name).

(** Modelled from the spec: [read(section, key)]. *)
Definition config_read (name key : string) : M string :=
  s ← get_config;
  mret (default "" (section_of s name !! key)).

(** Modelled from the spec: [markDirty()]. *)
Definition markDirty : M unit :=
  s ← get_config;
  put_config (mkIniState (sections s) true).

(** Modelled from the spec: [save()] writes the file only when the store
    is dirty. *)
Definition config_save : M unit :=
  s ← get_config;
  if isDirty s then
    put_disk (sections s);;
    put_config (mkIniState (sections s) false)
  else mret tt.

(** *** State Synchronizer (specification, section 4.2) *)

(** Modelled from the spec: the keys of a module's section; the
    specification names the attributes, not the keys. *)
Definition keyValue : string := "value".
Definition keyHasValue : string := "hasValue".
Definition keyBrightness : string := "brightness".
Definition keyPowered : string := "powered".

(** Numeric text: an optional minus sign and at least one digit. *)
Definition parse_int (txt : string) : option Z :=
  Z.of_int <$> NilZero.int_of_string txt.

Definition bool_text (b : bool) : string := if b then "1" else "0".

(** Modelled from the spec: a key that is absent is not applied, a key
    with malformed numeric text is a [ParseError]. *)
Definition read_key (sec : gmap string string) (key : string)
  : M (option Z) :=
  match sec !! key with
  | None => mret None
  | Some txt =>
      match parse_int txt with
      | Some z => mret (Some z)
      | None => throw ParseError
      end
  end.

Definition when_present {A} (o : option A) (f : A -> M unit) : M unit :=
  match o with
  | Some a => f a
  | None => mret tt
  end.

(** Modelled from the spec: [load(section, chain, index)]; the
    synchroniser is missing.  Every key is read before any is applied, so
    malformed text leaves the module as it was; the keys present are
    applied through the device's mutators. *)
Definition loadState (sec : gmap string string) (index : Z) : M unit :=
  v ← read_key sec keyValue;
  h ← read_key sec keyHasValue;
  b ← read_key sec keyBrightness;
  p ← read_key sec keyPowered;
  when_present v (setNumber index);;
  when_present h (fun z => if z =? 0 then clear index else mret tt);;
  when_present b (setBrightness index);;
  when_present p (fun z => setPower index (negb (z =? 0))).

(** Modelled from the spec: the projection of a module into its section. *)
Definition save_module (m : DisplayModule) (sec : gmap string string)
  : gmap string string :=
  <[keyPowered := bool_text (powered m)]>
    (<[keyBrightness := to_string (brightness m)]>
       (<[keyHasValue := bool_text (hasValue m)]>
          (match value m with
           | Some v => <[keyValue := to_string v]> sec
           | None => sec
           end))).

(** Modelled from the spec: [save(section, chain, index)]; written
    whatever the module's dirty flag says.  Marking the store dirty is
    [main]'s own call. *)
Definition saveState (name : string) (index : Z) : M unit :=
  c ← get_max;
  if valid_index c index then
    match modules c !! Z.to_nat index with
    | Some m =>
        s ← get_config;
        put_config (mkIniState
                      (<[name := save_module m (section_of s name)]> (sections s))
                      (isDirty s))
    | None => throw OutOfRange
    end
  else throw OutOfRange.

(** ** [main] (main.cpp, lines 54-195) *)

Definition argc (argv : list string) : Z := Z.of_nat (length argv).
Definition arg (argv : list string) (k : nat) : string := nth k argv "".

(** The body of the load loop (lines 89-93). *)
Definition load_body (i : Z) : M unit :=
  let name := moduleName i in
  has ← config_has name;
  if (has : bool) then
    s ← get_config;
    call (EvLoadState name i) (loadState (section_of s name) i)
  else mret tt.

(** [for (uint8_t i = 0; i < max->numDevices(); ++i)] (line 88): the
    counter wraps at 256. *)
Fixpoint load_loop (fuel : nat) (i : Z) : M unit :=
  match fuel with
  | O => diverge
  | S fuel' =>
      c ← get_max;
      if i <? numDevices c
      then load_body i;; load_loop fuel' (wrap_uint8 (i + 1))
      else mret tt
  end.

(** Lines 78-82: the number of modules comes from the store. *)
Definition configure_modules : M unit :=
  has ← config_has_key "interface:spi-0" "modules";
  if (has : bool) then
    txt ← config_read "interface:spi-0" "modules";
    let count := atoi txt in
    call (EvNumDevices count) (resize_chain count)
  else mret tt.

(** Lines 64-85: the store is read, the transport and the device are set
    up. *)
Definition prelude (verbose : bool) : M unit :=
  emit (EvCfgVerbose verbose);;
  call EvCfgLoad config_load;;
  emit (EvAddSPI "spi0_0");;
  emit (EvSpiVerbose verbose);;
  emit (EvSpiBaudRate 500000);;
  put_max newChain;;
  emit EvSpiDevice;;
  configure_modules;;
  call (EvWriteImmediately false) (writeImmediately false).

(** Lines 64-97: everything before the command is looked at. *)
Definition startup (fuel : nat) (verbose : bool) : M unit :=
  prelude verbose;;
  load_loop fuel 0;;
  call EvSetClean setClean.

(** [(num < 0) || (static_cast<unsigned>(num) >= max->numDevices())] *)
Definition invalid_module (num : Z) (c : Chain) : bool :=
  (num <? 0) || (numDevices c <=? to_unsigned num).

(** Lines 120-123, the same in the three branches. *)
Definition save_changes (name : string) (num : Z) : M unit :=
  call (EvSaveState name num) (saveState name num);;
  call EvMarkDirty markDirty;;
  call EvCfgSave config_save.

(** Lines 105-130. *)
Definition do_set (prog : string) (argv : list string) : M unit :=
  if argc argv =? 4 then
    try_catch (
      let num := wrap_int (atoi (arg argv 2) - 1) in
      let name := moduleName num in
      let val := atoi (arg argv 3) in
      c ← get_max;
      if invalid_module num c then
        emit (EvCerr (InvalidModuleNumber num));;
        exit (-1)
      else
        call (EvSetNumber num val) (setNumber num val);;
        save_changes name num)
  else emit (EvCerr (Usage prog cmdSet)).

(** Lines 131-156. *)
Definition do_clear (prog : string) (argv : list string) : M unit :=
  if argc argv =? 3 then
    try_catch (
      let num := wrap_int (atoi (arg argv 2) - 1) in
      let name := moduleName num in
      c ← get_max;
      if invalid_module num c then
        emit (EvCerr (InvalidModuleNumber num));;
        exit (-1)
      else
        call (EvClear num) (clear num);;
        save_changes name num)
  else emit (EvCerr (Usage prog cmdClear)).

(** Lines 157-186. *)
Definition do_brightness (prog : string) (argv : list string) : M unit :=
  if argc argv =? 4 then
    try_catch (
      let num := wrap_int (atoi (arg argv 2) - 1) in
      let name := moduleName num in
      let val := atoi (arg argv 3) in
      c ← get_max;
      if invalid_module num c then
        emit (EvCerr (InvalidModuleNumber num));;
        exit (-1)
      else if (val <? 0) || (15 <? val) then
        emit (EvCerr (BrightnessOutOfRange val));;
        exit (-1)
      else
        call (EvSetBrightness num val) (setBrightness num val);;
        save_changes name num)
  else emit (EvCerr (Usage prog cmdBrightness)).

(** Lines 100-190. *)
Definition command (prog : string) (argv : list string) : M unit :=
  if 1 <? argc argv then
    if String.eqb cmdReset (arg argv 1) then call EvReset reset
    else if String.eqb cmdSync (arg argv 1) then call EvSetDirty setDirty
    else if String.eqb cmdSet (arg argv 1) then do_set prog argv
    else if String.eqb cmdClear (arg argv 1) then do_clear prog argv
    else if String.eqb cmdBrightness (arg argv 1) then do_brightness prog argv
    else emit (EvCerr (UnknownCommand (arg argv 1)))
  else mret tt.

(** Lines 56-62: the program name is kept, a leading [-v] is shifted out. *)
Definition is_verbose (argv : list string) : bool :=
  (1 <? argc argv) && String.eqb optVerbose (arg argv 1).

Definition shift (argv : list string) : list string :=
  if is_verbose argv then tail argv else argv.

Definition main (fuel : nat) (argv : list string) : M unit :=
  let prog := arg argv 0 in
  startup fuel (is_verbose argv);;
  command prog (shift argv);;
  call EvSendData sendData.

(** The world [main] starts in: the state file, an empty store, no device
    yet, nothing on the bus, no call made. *)
Definition initial (file : gmap string (gmap string string)) : World :=
  mkWorld file emptyStore newChain [] [].

Definition run (fuel : nat) (file : gmap string (gmap string string))
           (argv : list string) : Res unit * World :=
  main fuel argv (initial file).

(** ** Vocabulary of the statements *)

(** The world after one more recorded call. *)
Definition logged (e : Event) (w : World) : World :=
  mkWorld (disk w) (config w) (max w) (bus w) (trace w ++ [e]).

(** The three commands that change one module. *)
Inductive Mutation :=
| SetTo (v : Z)
| Cleared
| Brightness (level : Z).

(** [atoi(argv[2])-1]; the subtraction wraps where C leaves the overflow
    undefined. *)
Definition module_arg (argv : list string) : Z :=
  wrap_int (atoi (arg argv 2) - 1).

(** The module number and the mutation a command line asks for, by the tests
    of lines 100-158; [None] for every other command line. *)
Definition requested (argv : list string) : option (Z * Mutation) :=
  if 1 <? argc argv then
    if String.eqb cmdReset (arg argv 1) then None
    else if String.eqb cmdSync (arg argv 1) then None
    else if String.eqb cmdSet (arg argv 1) then
      if argc argv =? 4
      then Some (module_arg argv, SetTo (atoi (arg argv 3))) else None
    else if String.eqb cmdClear (arg argv 1) then
      if argc argv =? 3 then Some (module_arg argv, Cleared) else None
    else if String.eqb cmdBrightness (arg argv 1) then
      if argc argv =? 4
      then Some (module_arg argv, Brightness (atoi (arg argv 3))) else None
    else None
  else None.

Definition mutation_event (num : Z) (mu : Mutation) : Event :=
  match mu with
  | SetTo v => EvSetNumber num v
  | Cleared => EvClear num
  | Brightness level => EvSetBrightness num level
  end.

Definition apply_mutation (mu : Mutation) : DisplayModule -> DisplayModule :=
  match mu with
  | SetTo v => module_setValue v
  | Cleared => module_clear
  | Brightness level => module_setBrightness level
  end.

(** The checks of lines 112, 137, 164 and 168: the diagnostic of the first
    one that fails. *)
Definition rejection (num : Z) (mu : Mutation) (c : Chain) : option Diag :=
  if invalid_module num c then Some (InvalidModuleNumber num)
  else
    match mu with
    | Brightness level =>
        if (level <? 0) || (15 <? level)
        then Some (BrightnessOutOfRange level) else None
    | _ => None
    end.

(** The world after lines 118-123 on module [num], which held [m]. *)
Definition saved (name : string) (num : Z) (mu : Mutation)
           (m : DisplayModule) (w : World) : World :=
  let m' := apply_mutation mu m in
  let secs :=
    <[name := save_module m' (section_of (config w) name)]>
      (sections (config w)) in
  mkWorld secs (mkIniState secs false)
          (with_modules (<[Z.to_nat num := m']> (modules (max w))) (max w))
          (bus w)
          (trace w ++ [mutation_event num mu; EvSaveState name num;
                       EvMarkDirty; EvCfgSave]).

(** The kinds of calls. *)
Definition is_setup (e : Event) : bool :=
  match e with
  | EvCfgVerbose _ | EvCfgLoad | EvAddSPI _ | EvSpiVerbose _
  | EvSpiBaudRate _ | EvSpiDevice | EvNumDevices _
  | EvWriteImmediately _ => true
  | _ => false
  end.

Definition is_load (e : Event) : bool :=
  match e with
  | EvLoadState _ _ => true
  | _ => false
  end.

Definition is_command (e : Event) : bool :=
  match e with
  | EvReset | EvSetDirty | EvSetNumber _ _ | EvClear _
  | EvSetBrightness _ _ | EvSaveState _ _ | EvMarkDirty | EvCfgSave
  | EvCerr _ => true
  | _ => false
  end.

(** The calls of the load loop: one per module that has a section. *)
Definition loaded_from (file : gmap string (gmap string string))
           (e : Event) : Prop :=
  exists j, 0 <= j /\ e = EvLoadState (moduleName j) j /\
            is_Some (file !! moduleName j).

(** The count line 79 reads from the store, when line 78 finds one. *)
Definition configured_count (file : gmap string (gmap string string))
  : option Z :=
  if bool_decide (is_Some (file !! "interface:spi-0" ≫= (.!! "modules")))
  then Some (atoi (default "" (default ∅ (file !! "interface:spi-0")
                                 !! "modules")))
  else None.

(** The calls of lines 64-75. *)
Definition setup_calls (v : bool) : list Event :=
  [EvCfgVerbose v; EvCfgLoad; EvAddSPI "spi0_0"; EvSpiVerbose v;
   EvSpiBaudRate 500000; EvSpiDevice].

(** The world the load loop starts in, with [n] untouched modules. *)
Definition configured (v : bool) (n : nat) (calls : list Event) (w : World)
  : World :=
  mkWorld (disk w) (mkIniState (disk w) false)
          (mkChain (replicate n defaultModule) false false)
          (bus w) (trace w ++ setup_calls v ++ calls).

(** The world after line 97. *)
Definition cleaned (w : World) : World :=
  mkWorld (disk w) (config w)
          (with_modules (set_dirty false <$> modules (max w)) (max w))
          (bus w) (trace w ++ [EvSetClean]).

(** The world after line 192 when the transport takes the write. *)
Definition flushed_world (w : World) : World :=
  mkWorld (disk w) (config w)
          (mkChain (set_dirty false <$> modules (max w)) false true)
          (bus w ++ [WriteAll (render <$> modules (max w))])
          (trace w ++ [EvSendData]).

(** The world after line 104. *)
Definition dirtied (w : World) : World :=
  mkWorld (disk w) (config w)
          (with_modules (set_dirty true <$> modules (max w)) (max w))
          (bus w) (trace w ++ [EvSetDirty]).

(** The diagnostic of the check a command line fails, if any. *)
Definition rejected (argv : list string) (c : Chain) : option Diag :=
  match requested argv with
  | Some (num, mu) => rejection num mu c
  | None => None
  end.

(** The number of modules the store configures; none when it has no count. *)
Definition module_count (file : gmap string (gmap string string)) : Z :=
  default 0 (configured_count file).

(** A load or a save names the section after the module index. *)
Definition named_by_index (e : Event) : Prop :=
  match e with
  | EvLoadState name i | EvSaveState name i => name = moduleName i
  | _ => True
  end.

(** The position of the first occurrence of a call. *)
Fixpoint position (e : Event) (t : list Event) : option nat :=
  match t with
  | [] => None
  | x :: r => if bool_decide (x = e) then Some O else S <$> position e r
  end.

(** Both calls occur, the first [a] before the first [b]. *)
Definition before (a b : Event) (t : list Event) : bool :=
  match position a t, position b t with
  | Some i, Some j => Nat.ltb i j
  | _, _ => false
  end.

(** The order of a mutation run as the specification words it: load, apply
    the mutation, flush, save. *)
Definition spec_order (mutation : Event) (t : list Event) : bool :=
  before EvCfgLoad mutation t && before mutation EvSendData t &&
  before EvSendData EvCfgSave t.


(** Lines 191-192 from a world with immediate writes off: what the flush
    leaves. *)
Definition flush_of (w : World) : Res unit * World :=
  if busAccepts (WriteAll (render <$> modules (max w)))
  then (Ok tt, flushed_world w)
  else (Throw TransportError, logged EvSendData w).

(** The world after line 102. *)
Definition was_reset (w : World) : World :=
  mkWorld (disk w) (config w)
          (with_modules (resetModules (modules (max w))) (max w))
          (bus w) (trace w ++ [EvReset]).

(** The argument count lines 106, 132 and 158 ask of a command. *)
Definition expected_argc (cmd : string) : option Z :=
  if String.eqb cmdSet cmd then Some 4
  else if String.eqb cmdClear cmd then Some 3
  else if String.eqb cmdBrightness cmd then Some 4
  else None.

(** The words line 101-157 know. *)
Definition known_commands : list string :=
  [cmdReset; cmdSync; cmdSet; cmdClear; cmdBrightness].

(** When [r] is a [return], it is [return -1] and the last call wrote a
    diagnostic. *)
Definition early_exit (r : Res unit) (w : World) : Prop :=
  forall c, r = Return c ->
            c = -1 /\ exists d, last (trace w) = Some (EvCerr d).


(** Every [return] of [m] is an early exit. *)
Definition exits_early (m : M unit) : Prop :=
  forall w, early_exit (fst (m w)) (snd (m w)).


(** Text at which [atoi] stops reading digits: the end of the string or a
    character that is no digit. *)
Definition stops (rest : string) : Prop :=
  match rest with
  | EmptyString => True
  | String c _ => digit_of c = None
  end.


(** The loads the loop of lines 88-94 makes for [n] modules: one for each
    index below [n] whose section is in the file, in index order. *)
Definition expected_loads (file : gmap string (gmap string string)) (n : Z)
  : list Event :=
  (fun i => EvLoadState (moduleName i) i)
    <$> filter (fun i => is_Some (file !! moduleName i)) (seqZ 0 n).




(** ** Reasoning about computations *)

(** [m] relates every world to the world it leaves. *)
Definition holds {A} (R : relation World) (m : M A) : Prop :=
  forall w, R w (snd (m w)).

(** [m] falls through or throws: it neither returns from [main] nor
    loops. *)
Definition plain {A} (m : M A) : Prop :=
  forall w, match fst (m w) with
            | Ok _ | Throw _ => True
            | Return _ | Diverge => False
            end.

(** [m] ends. *)
Definition halts {A} (m : M A) : Prop :=
  forall w, fst (m w) <> Diverge.

(** The trace grows by calls that satisfy [P]. *)
Definition grows (P : Event -> Prop) (w w' : World) : Prop :=
  exists t, trace w' = trace w ++ t /\ Forall P t.

(** Nothing but the device changes, the write mode stays off, and the
    modules selected by [K] keep their state; all that provided immediate
    writes are off to begin with. *)
Definition loading (K : nat -> Prop) (w w' : World) : Prop :=
  immediateWrite (max w) = false ->
  immediateWrite (max w') = false /\
  flushed (max w') = flushed (max w) /\
  length (modules (max w')) = length (modules (max w)) /\
  disk w' = disk w /\ config w' = config w /\ bus w' = bus w /\
  forall k, K k -> modules (max w') !! k = modules (max w) !! k.

(** ** Machine integers *)

Lemma wrap_uint8_nonneg (z : Z) : 0 <= wrap_uint8 z.
Proof. unfold wrap_uint8. apply Z.mod_pos_bound. lia. Qed.

Lemma wrap_int_small (z : Z) : INT_MIN <= z <= INT_MAX -> wrap_int z = z.
Proof.
  unfold wrap_int, INT_MIN, INT_MAX. intros H.
  rewrite Z.mod_small; lia.
Qed.

Lemma wrap_int_range (z : Z) : INT_MIN <= wrap_int z <= INT_MAX.
Proof.
  unfold wrap_int, INT_MIN, INT_MAX.
  pose proof (Z.mod_pos_bound (z + 2 ^ 31) (2 ^ 32)). lia.
Qed.

Lemma to_unsigned_small (z : Z) : 0 <= z <= INT_MAX -> to_unsigned z = z.
Proof.
  unfold to_unsigned, INT_MAX. intros H. rewrite Z.mod_small; lia.
Qed.

(** ** The monad and the two relations *)

Lemma bind_run {A B} (m : M A) (f : A -> M B) (w : World) :
  (m ≫= f) w =
  match m w with
  | (Ok a, w') => f a w'
  | (Return c, w') => (Return c, w')
  | (Throw e, w') => (Throw e, w')
  | (Diverge, w') => (Diverge, w')
  end.
Proof. reflexivity. Qed.

Lemma bind_ok {A B} (m : M A) (f : A -> M B) (w w' : World) (a : A) :
  m w = (Ok a, w') -> (m ≫= f) w = f a w'.
Proof. intros H. rewrite bind_run, H. reflexivity. Qed.

#[local] Arguments String.eqb : simpl never.
#[local] Arguments atoi : simpl never.
#[local] Arguments moduleName : simpl never.
#[local] Arguments to_string : simpl never.
#[local] Arguments wrap_int : simpl never.

(** Running a computation made of the primitives. *)
Ltac run_m :=
  cbv [mbind M_bind mret M_ret throw exit diverge get_max get_config get_disk
       put_max put_config put_disk bus_send emit];
  simpl.

#[local] Instance grows_preorder (P : Event -> Prop) : PreOrder (grows P).
Proof.
  split.
  - intros w. exists []. split; [by rewrite app_nil_r | constructor].
  - intros w1 w2 w3 (t1 & E1 & F1) (t2 & E2 & F2).
    exists (t1 ++ t2). split.
    + by rewrite E2, E1, app_assoc.
    + by apply Forall_app.
Qed.

#[local] Instance loading_preorder (K : nat -> Prop) : PreOrder (loading K).
Proof.
  split.
  - intros w Hi. by repeat split.
  - intros w1 w2 w3 H12 H23 Hi.
    destruct (H12 Hi) as (I2 & F2 & L2 & D2 & C2 & B2 & K2).
    destruct (H23 I2) as (I3 & F3 & L3 & D3 & C3 & B3 & K3).
    repeat split; try congruence.
    intros k Hk. rewrite K3, K2; auto.
Qed.

Lemma loading_weaken (K K' : nat -> Prop) (w w' : World) :
  (forall k, K' k -> K k) -> loading K w w' -> loading K' w w'.
Proof.
  intros HK H Hi. destruct (H Hi) as (? & ? & ? & ? & ? & ? & Hk).
  repeat split; auto.
Qed.

Lemma grows_weaken (P Q : Event -> Prop) (w w' : World) :
  (forall e, P e -> Q e) -> grows P w w' -> grows Q w w'.
Proof.
  intros HPQ (t & E & F). exists t. split; [done |].
  eapply Forall_impl; eauto.
Qed.

Lemma grows_same (P : Event -> Prop) (w w' : World) :
  trace w' = trace w -> grows P w w'.
Proof. intros E. exists []. split; [by rewrite app_nil_r | constructor]. Qed.

Lemma holds_bind {A B} (R : relation World) `{!PreOrder R}
      (m : M A) (f : A -> M B) :
  holds R m -> (forall a, holds R (f a)) -> holds R (m ≫= f).
Proof.
  intros Hm Hf w. rewrite bind_run. specialize (Hm w).
  destruct (m w) as [[a | c | e |] w']; simpl in *; auto.
  etrans; [exact Hm | apply Hf].
Qed.

Lemma holds_mret {A} (R : relation World) `{!Reflexive R} (a : A) :
  holds R (mret a).
Proof. intros w. simpl. reflexivity. Qed.

Lemma holds_throw {A} (R : relation World) `{!Reflexive R} (e : Error) :
  holds R (@throw A e).
Proof. intros w. simpl. reflexivity. Qed.

Lemma holds_exit {A} (R : relation World) `{!Reflexive R} (c : Z) :
  holds R (@exit A c).
Proof. intros w. simpl. reflexivity. Qed.

Lemma holds_diverge {A} (R : relation World) `{!Reflexive R} :
  holds R (@diverge A).
Proof. intros w. simpl. reflexivity. Qed.

Lemma holds_get_max (R : relation World) `{!Reflexive R} : holds R get_max.
Proof. intros w. simpl. reflexivity. Qed.

Lemma holds_get_config (R : relation World) `{!Reflexive R} :
  holds R get_config.
Proof. intros w. simpl. reflexivity. Qed.

Lemma holds_get_disk (R : relation World) `{!Reflexive R} : holds R get_disk.
Proof. intros w. simpl. reflexivity. Qed.

Lemma grows_put_max (P : Event -> Prop) (c : Chain) :
  holds (grows P) (put_max c).
Proof. intros w. by apply grows_same. Qed.

Lemma grows_put_config (P : Event -> Prop) (s : IniState) :
  holds (grows P) (put_config s).
Proof. intros w. by apply grows_same. Qed.

Lemma grows_put_disk (P : Event -> Prop) (d : gmap string (gmap string string)) :
  holds (grows P) (put_disk d).
Proof. intros w. by apply grows_same. Qed.

Lemma grows_bus_send (P : Event -> Prop) (b : BusWrite) :
  holds (grows P) (bus_send b).
Proof. intros w. by apply grows_same. Qed.

Lemma grows_emit (P : Event -> Prop) (e : Event) :
  P e -> holds (grows P) (emit e).
Proof. intros He w. exists [e]. split; [done | by repeat constructor]. Qed.

Lemma loading_emit (K : nat -> Prop) (e : Event) : holds (loading K) (emit e).
Proof. intros w Hi. by repeat split. Qed.

Lemma holds_try_catch (R : relation World) `{!PreOrder R} (body : M unit) :
  holds R body ->
  (forall e, holds R (emit (EvCerr (ErrorWhat e)))) ->
  holds R (try_catch body).
Proof.
  intros Hb He w. unfold try_catch. specialize (Hb w).
  destruct (body w) as [[a | c | e |] w']; simpl in *; auto.
  etrans; [exact Hb | apply (He e w')].
Qed.

(** Decomposition of a computation along its binds and branches. *)
Ltac holds_step :=
  first
    [ apply holds_bind; [typeclasses eauto | | intros ?]
    | apply holds_mret; typeclasses eauto
    | apply holds_throw; typeclasses eauto
    | apply holds_exit; typeclasses eauto
    | apply holds_diverge; typeclasses eauto
    | apply holds_get_max; typeclasses eauto
    | apply holds_get_config; typeclasses eauto
    | apply holds_get_disk; typeclasses eauto
    | apply grows_put_max
    | apply grows_put_config
    | apply grows_put_disk
    | apply grows_bus_send
    | apply loading_emit
    | match goal with
      | |- holds _ (if ?b then _ else _) => destruct b
      | |- holds _ (match ?x with _ => _ end) => destruct x
      | |- holds _ (let _ := _ in _) => cbv zeta
      end ].

Ltac holds_auto := repeat holds_step.

(** *** The library records no call *)

Lemma grows_mutate P index f : holds (grows P) (mutate index f).
Proof. unfold mutate. holds_auto. Qed.

Lemma grows_setNumber P index v : holds (grows P) (setNumber index v).
Proof. apply grows_mutate. Qed.

Lemma grows_clear P index : holds (grows P) (clear index).
Proof. apply grows_mutate. Qed.

Lemma grows_setBrightness P index level :
  holds (grows P) (setBrightness index level).
Proof. unfold setBrightness. holds_auto. Qed.

Lemma grows_setPower P index on : holds (grows P) (setPower index on).
Proof. apply grows_mutate. Qed.

Lemma grows_read_key P sec key : holds (grows P) (read_key sec key).
Proof. unfold read_key. holds_auto. Qed.

Lemma grows_loadState P sec index : holds (grows P) (loadState sec index).
Proof.
  unfold loadState, when_present.
  holds_auto;
    first [ apply grows_read_key | apply grows_setNumber | apply grows_clear
          | apply grows_setBrightness | apply grows_setPower ].
Qed.

Lemma grows_saveState P name index : holds (grows P) (saveState name index).
Proof. unfold saveState. holds_auto. Qed.

Lemma grows_sendData P : holds (grows P) sendData.
Proof. unfold sendData. holds_auto. Qed.

Lemma grows_call {A} P (e : Event) (op : M A) :
  P e -> holds (grows P) op -> holds (grows P) (call e op).
Proof.
  intros He Hop. unfold call. apply holds_bind; [typeclasses eauto | |auto].
  by apply grows_emit.
Qed.

(** *** The library neither returns from [main] nor loops *)

Lemma plain_bind {A B} (m : M A) (f : A -> M B) :
  plain m -> (forall a, plain (f a)) -> plain (m ≫= f).
Proof.
  intros Hm Hf w. rewrite bind_run. specialize (Hm w).
  destruct (m w) as [[a | c | e |] w']; simpl in *; auto.
  apply Hf.
Qed.

Lemma plain_mret {A} (a : A) : plain (mret a).
Proof. by intros w. Qed.

Lemma plain_throw {A} (e : Error) : plain (@throw A e).
Proof. by intros w. Qed.

Ltac plain_step :=
  first
    [ apply plain_bind; [| intros ?]
    | apply plain_mret
    | apply plain_throw
    | by intros ?
    | match goal with
      | |- plain (if ?b then _ else _) => destruct b
      | |- plain (match ?x with _ => _ end) => destruct x
      | |- plain (let _ := _ in _) => cbv zeta
      end ].

Lemma plain_loadState sec index : plain (loadState sec index).
Proof. unfold loadState, when_present, read_key. repeat plain_step. Qed.

Lemma plain_load_body i : plain (load_body i).
Proof.
  unfold load_body, config_has, call.
  repeat first [ apply plain_loadState | plain_step ].
Qed.

Lemma plain_prelude v : plain (prelude v).
Proof.
  unfold prelude, configure_modules, call. repeat plain_step.
Qed.

(** *** With immediate writes off, a mutator changes its module only *)

Lemma loading_mutate index f :
  holds (loading (fun k => k <> Z.to_nat index)) (mutate index f).
Proof.
  intros w Hi. unfold mutate. rewrite bind_run. simpl.
  destruct (valid_index (max w) index); [| by repeat split].
  destruct (modules (max w) !! Z.to_nat index) as [m |]; [| by repeat split].
  rewrite Hi. simpl. repeat split; auto.
  - by rewrite length_insert.
  - intros k Hk. by rewrite list_lookup_insert_ne.
Qed.

Lemma loading_setBrightness index level :
  holds (loading (fun k => k <> Z.to_nat index)) (setBrightness index level).
Proof.
  intros w Hi. unfold setBrightness. rewrite bind_run. simpl.
  destruct (valid_index (max w) index); [| by repeat split].
  destruct ((0 <=? level) && (level <=? 15)); [| by repeat split].
  by apply loading_mutate.
Qed.

Lemma loading_read_key K sec key : holds (loading K) (read_key sec key).
Proof. unfold read_key. holds_auto. Qed.

Lemma loading_loadState sec index :
  holds (loading (fun k => k <> Z.to_nat index)) (loadState sec index).
Proof.
  unfold loadState, when_present.
  repeat first
    [ apply loading_read_key
    | apply loading_setBrightness
    | apply loading_mutate
    | holds_step ].
Qed.

Lemma loading_load_body i :
  holds (loading (fun k => k <> Z.to_nat i)) (load_body i).
Proof.
  unfold load_body, config_has, call.
  repeat first [ apply loading_loadState | holds_step ].
Qed.

(** Line 90: a module without a section is passed over. *)
Lemma load_body_missing (i : Z) (w : World) :
  sections (config w) !! moduleName i = None ->
  load_body i w = (Ok tt, w).
Proof.
  intros H. unfold load_body, config_has. rewrite !bind_run. simpl.
  rewrite H. by rewrite bool_decide_eq_false_2 by (intros [? ?]; done).
Qed.

Lemma grows_load_body (i : Z) (w : World) :
  grows (fun e => e = EvLoadState (moduleName i) i /\
                  is_Some (sections (config w) !! moduleName i))
        w (snd (load_body i w)).
Proof.
  destruct (sections (config w) !! moduleName i) as [sec |] eqn:E.
  - eapply grows_weaken with (P := fun e => e = EvLoadState (moduleName i) i).
    { intros e ->. split; eauto. }
    assert (H : holds (grows (fun e => e = EvLoadState (moduleName i) i))
                      (load_body i)); [| apply H].
    unfold load_body, config_has.
    repeat first [ apply grows_call; [reflexivity |]
                 | apply grows_loadState
                 | holds_step ].
  - rewrite load_body_missing by done. reflexivity.
Qed.

Lemma load_loop_loading (fuel : nat) :
  forall (i : Z) (w : World),
    0 <= i ->
    loading (fun k => sections (config w) !! moduleName (Z.of_nat k) = None)
            w (snd (load_loop fuel i w)).
Proof.
  induction fuel as [| fuel IH]; intros i w Hi0.
  - simpl. reflexivity.
  - simpl load_loop. rewrite bind_run. simpl.
    destruct (i <? numDevices (max w)); [| reflexivity].
    rewrite bind_run.
    assert (Hb : loading (fun k => sections (config w) !! moduleName (Z.of_nat k) = None)
                         w (snd (load_body i w))).
    { destruct (sections (config w) !! moduleName i) eqn:E.
      - eapply loading_weaken; [| apply loading_load_body].
        intros k Hk ->. rewrite Z2Nat.id in Hk by done. congruence.
      - rewrite load_body_missing by done. reflexivity. }
    destruct (load_body i w) as [[[] | c | e |] w1]; simpl in *; auto.
    intros Him. destruct (Hb Him) as (I1 & F1 & L1 & D1 & C1 & B1 & K1).
    pose proof (wrap_uint8_nonneg (i + 1)) as H0.
    specialize (IH (wrap_uint8 (i + 1)) w1 H0). rewrite C1 in IH.
    destruct (IH I1) as (I2 & F2 & L2 & D2 & C2 & B2 & K2).
    repeat split; try congruence.
    intros k Hk. rewrite K2, K1; auto.
Qed.

Lemma load_loop_grows (fuel : nat) :
  forall (i : Z) (w : World),
    0 <= i ->
    immediateWrite (max w) = false ->
    grows (loaded_from (sections (config w))) w (snd (load_loop fuel i w)).
Proof.
  induction fuel as [| fuel IH]; intros i w Hi0 Him.
  - simpl. reflexivity.
  - simpl load_loop. rewrite bind_run. simpl.
    destruct (i <? numDevices (max w)); [| reflexivity].
    rewrite bind_run.
    pose proof (grows_load_body i w) as Hg.
    pose proof (loading_load_body i w Him) as (I1 & _ & _ & _ & C1 & _).
    eapply grows_weaken with (Q := loaded_from (sections (config w))) in Hg;
      [| intros e [-> Hs]; by exists i].
    destruct (load_body i w) as [[[] | c | e |] w1]; simpl in *; auto.
    etrans; [exact Hg |].
    rewrite <- C1. apply IH; [apply wrap_uint8_nonneg | done].
Qed.

(** The loop ends when it is given enough fuel, provided the counter can
    reach the number of modules. *)
Lemma load_loop_ends (fuel : nat) :
  forall (i : Z) (w : World),
    immediateWrite (max w) = false ->
    0 <= i ->
    numDevices (max w) <= 255 ->
    (Z.to_nat (numDevices (max w) - i) < fuel)%nat ->
    fst (load_loop fuel i w) <> Diverge.
Proof.
  induction fuel as [| fuel IH]; intros i w Him Hi0 Hn Hf; [lia |].
  simpl load_loop. rewrite bind_run. simpl.
  destruct (Z.ltb_spec i (numDevices (max w))) as [Hlt | Hge]; [| done].
  rewrite bind_run.
  pose proof (loading_load_body i w Him) as (I1 & _ & L1 & _).
  pose proof (plain_load_body i w) as Hp.
  destruct (load_body i w) as [[[] | c | e |] w1]; simpl in *; try done.
  assert (wrap_uint8 (i + 1) = i + 1) as ->
      by (unfold wrap_uint8; rewrite Z.mod_small; lia).
  apply IH; auto; unfold numDevices in *; rewrite ?L1; lia.
Qed.

(** With more modules than the 8-bit counter can count, and no section to
    load, the loop never ends: no amount of fuel is enough. *)
Lemma load_loop_never_ends (fuel : nat) :
  forall (i : Z) (w : World),
    0 <= i < 256 ->
    256 <= numDevices (max w) ->
    sections (config w) = ∅ ->
    fst (load_loop fuel i w) = Diverge.
Proof.
  induction fuel as [| fuel IH]; intros i w Hi Hn He; [done |].
  simpl load_loop. rewrite bind_run. simpl.
  destruct (Z.ltb_spec i (numDevices (max w))) as [_ | Hge]; [| lia].
  rewrite bind_run, load_body_missing by (by rewrite He, lookup_empty).
  apply IH; try done.
  unfold wrap_uint8. apply Z.mod_pos_bound. lia.
Qed.

(** *** Lines 64-85 *)

Lemma prelude_run (v : bool) (w : World) :
  prelude v w =
  match configured_count (disk w) with
  | Some count =>
      if count <? 0 then
        (Throw InvalidArgument,
         mkWorld (disk w) (mkIniState (disk w) false) newChain (bus w)
                 (trace w ++ setup_calls v ++ [EvNumDevices count]))
      else
        (Ok tt, configured v (Z.to_nat count)
                           [EvNumDevices count; EvWriteImmediately false] w)
  | None => (Ok tt, configured v 0 [EvWriteImmediately false] w)
  end.
Proof.
  unfold prelude, configure_modules, configured_count, configured, call,
    config_has_key, config_read, config_load, resize_chain, writeImmediately,
    section_of.
  run_m.
  destruct (bool_decide _); run_m.
  - destruct (_ <? 0); run_m; rewrite ?resize_nil, <- !app_assoc;
      reflexivity.
  - rewrite <- !app_assoc; reflexivity.
Qed.

(** *** Lines 64-97 *)

Lemma load_loop_no_return (fuel : nat) :
  forall (i : Z) (w : World) (c : Z), fst (load_loop fuel i w) <> Return c.
Proof.
  induction fuel as [| fuel IH]; intros i w c; [done |].
  simpl load_loop. rewrite bind_run. simpl.
  destruct (i <? numDevices (max w)); [| done].
  rewrite bind_run. pose proof (plain_load_body i w) as Hp.
  destruct (load_body i w) as [[[] | c' | e |] w1]; simpl in *; done.
Qed.

Lemma startup_run (fuel : nat) (v : bool) (w : World) :
  startup fuel v w =
  match prelude v w with
  | (Ok _, w1) =>
      match load_loop fuel 0 w1 with
      | (Ok _, w2) => (Ok tt, cleaned w2)
      | (Return c, w2) => (Return c, w2)
      | (Throw e, w2) => (Throw e, w2)
      | (Diverge, w2) => (Diverge, w2)
      end
  | (Return c, w1) => (Return c, w1)
  | (Throw e, w1) => (Throw e, w1)
  | (Diverge, w1) => (Diverge, w1)
  end.
Proof.
  unfold startup. rewrite bind_run.
  destruct (prelude v w) as [[[] | c | e |] w1]; reflexivity.
Qed.

Lemma configured_facts (fuel : nat) (v : bool) (n : nat) (calls : list Event)
      (w w' : World) (r : Res unit) :
  Forall (fun e => is_setup e = true) calls ->
  match load_loop fuel 0 (configured v n calls w) with
  | (Ok _, w2) => (Ok tt, cleaned w2)
  | (Return c, w2) => (Return c, w2)
  | (Throw e, w2) => (Throw e, w2)
  | (Diverge, w2) => (Diverge, w2)
  end = (r, w') ->
  disk w' = disk w /\ bus w' = bus w /\
  (exists calls loads fin,
      trace w' = trace w ++ setup_calls v ++ calls ++ loads ++ fin /\
      Forall (fun e => is_setup e = true) calls /\
      Forall (loaded_from (disk w)) loads /\
      match r with
      | Ok _ => fin = [EvSetClean]
      | Return _ => False
      | Throw _ | Diverge => fin = []
      end) /\
  (forall k, disk w !! moduleName (Z.of_nat k) = None ->
             (k < length (modules (max w')))%nat ->
             modules (max w') !! k = Some defaultModule) /\
  (r = Ok tt ->
   config w' = mkIniState (disk w) false /\
   immediateWrite (max w') = false /\
   flushed (max w') = false /\
   Forall (fun m => dirty m = false) (modules (max w'))).
Proof.
  intros Hs.
  pose proof (load_loop_loading fuel 0 (configured v n calls w) ltac:(lia)
                                ltac:(reflexivity)) as Hl.
  pose proof (load_loop_grows fuel 0 (configured v n calls w) ltac:(lia)
                              ltac:(reflexivity)) as Hg.
  pose proof (load_loop_no_return fuel 0 (configured v n calls w)) as Hr.
  destruct (load_loop fuel 0 (configured v n calls w)) as [r2 w2].
  unfold configured in Hl, Hg. simpl in Hl, Hg, Hr.
  destruct Hl as (I2 & F2 & L2 & D2 & C2 & B2 & K2).
  destruct Hg as (loads & Et & Fl). simpl in Et, Fl.
  rewrite length_replicate in L2.
  assert (Hk : forall k, disk w !! moduleName (Z.of_nat k) = None ->
                         (k < length (modules (max w2)))%nat ->
                         modules (max w2) !! k = Some defaultModule).
  { intros k Hk Hlen. rewrite K2 by done. apply lookup_replicate_2. lia. }
  assert (Ht : forall fin,
             trace w2 ++ fin = trace w ++ setup_calls v ++ calls ++ loads ++ fin).
  { intros fin. rewrite Et, <- !app_assoc. reflexivity. }
  destruct r2 as [[] | c | e |]; intros [= <- <-].
  - simpl. split_and!; auto.
    + exists calls, loads, [EvSetClean]. by split_and!.
    + intros k Hk' Hlen. rewrite length_fmap in Hlen.
      rewrite list_lookup_fmap, Hk by done. reflexivity.
    + intros _. split_and!; auto.
      apply Forall_fmap. by apply Forall_true.
  - by destruct (Hr c).
  - split_and!; auto; [| done].
    exists calls, loads, [].
    split_and!; auto. rewrite <- Ht. by rewrite app_nil_r.
  - split_and!; auto; [| done].
    exists calls, loads, [].
    split_and!; auto. rewrite <- Ht. by rewrite app_nil_r.
Qed.

Lemma startup_facts (fuel : nat) (v : bool) (w w' : World) (r : Res unit) :
  startup fuel v w = (r, w') ->
  disk w' = disk w /\ bus w' = bus w /\
  (exists calls loads fin,
      trace w' = trace w ++ setup_calls v ++ calls ++ loads ++ fin /\
      Forall (fun e => is_setup e = true) calls /\
      Forall (loaded_from (disk w)) loads /\
      match r with
      | Ok _ => fin = [EvSetClean]
      | Return _ => False
      | Throw _ | Diverge => fin = []
      end) /\
  (forall k, disk w !! moduleName (Z.of_nat k) = None ->
             (k < length (modules (max w')))%nat ->
             modules (max w') !! k = Some defaultModule) /\
  (r = Ok tt ->
   config w' = mkIniState (disk w) false /\
   immediateWrite (max w') = false /\
   flushed (max w') = false /\
   Forall (fun m => dirty m = false) (modules (max w'))).
Proof.
  rewrite startup_run, prelude_run.
  destruct (configured_count (disk w)) as [count |].
  - destruct (count <? 0).
    + intros [= <- <-]. simpl. split_and!; try done.
      * exists [EvNumDevices count], [], [].
        rewrite !app_nil_r. split_and!; auto.
      * intros k _ Hk. simpl in Hk. lia.
    + apply configured_facts. by repeat constructor.
  - apply configured_facts. by repeat constructor.
Qed.

(** *** Lines 100-190 *)

Lemma invalid_module_valid (num : Z) (c : Chain) :
  INT_MIN <= num <= INT_MAX ->
  invalid_module num c = negb (valid_index c num).
Proof.
  intros Hr. unfold invalid_module, valid_index.
  destruct (Z.ltb_spec num 0) as [Hneg | Hpos]; simpl.
  - destruct (Z.leb_spec 0 num); [lia | done].
  - rewrite to_unsigned_small by lia.
    destruct (Z.leb_spec 0 num); [| lia]. simpl.
    destruct (Z.leb_spec (numDevices c) num), (Z.ltb_spec num (numDevices c));
      simpl; lia || done.
Qed.

Lemma requested_range (argv : list string) (num : Z) (mu : Mutation) :
  requested argv = Some (num, mu) -> INT_MIN <= num <= INT_MAX.
Proof.
  unfold requested, module_arg. intros H.
  repeat match type of H with
         | (if ?b then _ else _) = _ => destruct b
         end; try discriminate;
    injection H as <- _; apply wrap_int_range.
Qed.

Lemma valid_index_lookup (c : Chain) (num : Z) :
  valid_index c num = true ->
  0 <= num /\ exists m, modules c !! Z.to_nat num = Some m.
Proof.
  unfold valid_index, numDevices. intros H.
  apply andb_prop in H as [H0 H1].
  apply Z.leb_le in H0. apply Z.ltb_lt in H1. split; [done |].
  apply lookup_lt_is_Some_2. lia.
Qed.

Lemma valid_index_insert (c : Chain) (num : Z) (k : nat) (m : DisplayModule) :
  valid_index (with_modules (<[k := m]> (modules c)) c) num = valid_index c num.
Proof. unfold valid_index, numDevices. simpl. by rewrite length_insert. Qed.

(** Lines 112-115, 137-140 and 164-171: a command that fails a check
    writes its diagnostic and returns -1. *)
Lemma command_rejected (prog : string) (argv : list string) (w : World)
      (num : Z) (mu : Mutation) (d : Diag) :
  requested argv = Some (num, mu) ->
  rejection num mu (max w) = Some d ->
  command prog argv w = (Return (-1), logged (EvCerr d) w).
Proof.
  unfold requested, command, rejection. intros Hreq Hrej.
  repeat match type of Hreq with
         | (if ?b then _ else _) = _ => destruct b eqn:?
         end; try discriminate;
    injection Hreq as <- <-;
    unfold do_set, do_clear, do_brightness, try_catch;
    match goal with H : (argc argv =? _) = true |- _ => rewrite H end;
    run_m; unfold module_arg in *;
    destruct (invalid_module _ (max w)); simpl in *;
    try (injection Hrej as <-; reflexivity); try discriminate.
  destruct ((atoi (arg argv 3) <? 0) || (15 <? atoi (arg argv 3)));
    [injection Hrej as <-; reflexivity | discriminate].
Qed.

Lemma mutate_run (w : World) (index : Z) (f : DisplayModule -> DisplayModule)
      (m : DisplayModule) :
  immediateWrite (max w) = false ->
  valid_index (max w) index = true ->
  modules (max w) !! Z.to_nat index = Some m ->
  mutate index f w =
  (Ok tt, mkWorld (disk w) (config w)
                  (with_modules (<[Z.to_nat index := f m]> (modules (max w)))
                                (max w))
                  (bus w) (trace w)).
Proof.
  intros Hi Hv Hm. unfold mutate. run_m. by rewrite Hv, Hm, Hi.
Qed.

Lemma setBrightness_run (w : World) (index level : Z) :
  valid_index (max w) index = true ->
  0 <= level <= 15 ->
  setBrightness index level w = mutate index (module_setBrightness level) w.
Proof.
  intros Hv Hl. unfold setBrightness. rewrite bind_run. simpl. rewrite Hv.
  destruct (Z.leb_spec 0 level); [| lia].
  destruct (Z.leb_spec level 15); [| lia]. reflexivity.
Qed.

(** Lines 120-123. *)
Lemma save_changes_run (name : string) (num : Z) (w : World)
      (m : DisplayModule) :
  valid_index (max w) num = true ->
  modules (max w) !! Z.to_nat num = Some m ->
  save_changes name num w =
  (Ok tt,
   let secs := <[name := save_module m (section_of (config w) name)]>
                 (sections (config w)) in
   mkWorld secs (mkIniState secs false) (max w) (bus w)
           (trace w ++ [EvSaveState name num; EvMarkDirty; EvCfgSave])).
Proof.
  intros Hv Hm.
  unfold save_changes, call, saveState, markDirty, config_save. run_m.
  rewrite Hv, Hm. simpl. rewrite <- !app_assoc. reflexivity.
Qed.

(** Lines 116-123, 141-149 and 172-179: a command that passes its checks
    changes the module, saves it and saves the store. *)
Lemma command_applied (prog : string) (argv : list string) (w : World)
      (num : Z) (mu : Mutation) (m : DisplayModule) :
  requested argv = Some (num, mu) ->
  rejection num mu (max w) = None ->
  immediateWrite (max w) = false ->
  modules (max w) !! Z.to_nat num = Some m ->
  command prog argv w = (Ok tt, saved (moduleName num) num mu m w).
Proof.
  intros Hreq Hrej Hi Hm.
  pose proof (requested_range _ _ _ Hreq) as Hrange.
  assert (Hv : valid_index (max w) num = true).
  { unfold rejection in Hrej.
    rewrite invalid_module_valid in Hrej by done.
    by destruct (valid_index (max w) num). }
  assert (Hinv : invalid_module num (max w) = false).
  { rewrite invalid_module_valid by done. by rewrite Hv. }
  assert (Hlen : (Z.to_nat num < length (modules (max w)))%nat).
  { apply lookup_lt_is_Some_1. eauto. }
  unfold requested, command in *.
  repeat match type of Hreq with
         | (if ?b then _ else _) = _ => destruct b eqn:?
         end; try discriminate;
    injection Hreq as Hnum <-; unfold module_arg in Hnum;
    unfold do_set, do_clear, do_brightness, try_catch;
    match goal with H : (argc argv =? _) = true |- _ => rewrite H end;
    rewrite bind_run; simpl; rewrite Hnum, Hinv.
  - unfold call, setNumber. rewrite !bind_run. simpl.
    rewrite (mutate_run _ _ _ m) by done.
    erewrite save_changes_run;
      [| simpl; by rewrite valid_index_insert
       | simpl; by apply list_lookup_insert_eq ].
    unfold saved. simpl. rewrite <- !app_assoc. reflexivity.
  - unfold call, clear. rewrite !bind_run. simpl.
    rewrite (mutate_run _ _ _ m) by done.
    erewrite save_changes_run;
      [| simpl; by rewrite valid_index_insert
       | simpl; by apply list_lookup_insert_eq ].
    unfold saved. simpl. rewrite <- !app_assoc. reflexivity.
  - unfold rejection in Hrej. rewrite Hinv in Hrej.
    destruct ((atoi (arg argv 3) <? 0) || (15 <? atoi (arg argv 3))) eqn:El;
      [discriminate |].
    apply orb_false_elim in El as [El1 El2].
    apply Z.ltb_ge in El1. apply Z.ltb_ge in El2.
    unfold call. rewrite !bind_run. simpl.
    rewrite setBrightness_run by (done || lia).
    rewrite (mutate_run _ _ _ m) by done.
    erewrite save_changes_run;
      [| simpl; by rewrite valid_index_insert
       | simpl; by apply list_lookup_insert_eq ].
    unfold saved. simpl. rewrite <- !app_assoc. reflexivity.
Qed.

(** Line 104. *)
Lemma command_sync (prog : string) (argv : list string) (w : World) :
  1 < argc argv ->
  arg argv 1 = cmdSync ->
  command prog argv w = (Ok tt, dirtied w).
Proof.
  intros Hc Ha. unfold command.
  destruct (Z.ltb_spec 1 (argc argv)); [| lia].
  rewrite Ha. reflexivity.
Qed.

(** Lines 191-192. *)
Lemma flush_run (w : World) :
  immediateWrite (max w) = false ->
  call EvSendData sendData w =
  if busAccepts (WriteAll (render <$> modules (max w)))
  then (Ok tt, flushed_world w)
  else (Throw TransportError, logged EvSendData w).
Proof.
  intros Hi. unfold call, sendData. run_m. rewrite Hi.
  by destruct (busAccepts _).
Qed.

Lemma main_run (fuel : nat) (argv : list string) (w : World) :
  main fuel argv w =
  match startup fuel (is_verbose argv) w with
  | (Ok _, w1) =>
      match command (arg argv 0) (shift argv) w1 with
      | (Ok _, w2) => call EvSendData sendData w2
      | (Return c, w2) => (Return c, w2)
      | (Throw e, w2) => (Throw e, w2)
      | (Diverge, w2) => (Diverge, w2)
      end
  | (Return c, w1) => (Return c, w1)
  | (Throw e, w1) => (Throw e, w1)
  | (Diverge, w1) => (Diverge, w1)
  end.
Proof.
  unfold main. rewrite bind_run.
  destruct (startup fuel (is_verbose argv) w) as [[[] | c | e |] w1];
    reflexivity.
Qed.

(** *** Outcomes of the command *)

Lemma halts_bind {A B} (m : M A) (f : A -> M B) :
  halts m -> (forall a, halts (f a)) -> halts (m ≫= f).
Proof.
  intros Hm Hf w. rewrite bind_run. specialize (Hm w).
  destruct (m w) as [[a | c | e |] w']; simpl in *; auto.
  apply Hf.
Qed.

Lemma halts_plain {A} (m : M A) : plain m -> halts m.
Proof. intros H w. specialize (H w). by destruct (fst (m w)). Qed.

Ltac halts_step :=
  first
    [ apply halts_bind; [| intros ?]
    | by intros ?
    | match goal with
      | |- halts (if ?b then _ else _) => destruct b
      | |- halts (match ?x with _ => _ end) => destruct x
      | |- halts (let _ := _ in _) => cbv zeta
      end ].

Lemma try_catch_settled (body : M unit) (w : World) :
  fst (body w) <> Diverge ->
  fst (try_catch body w) = Ok tt \/ exists c, fst (try_catch body w) = Return c.
Proof.
  unfold try_catch. destruct (body w) as [[[] | c | e |] w']; simpl; eauto.
  done.
Qed.

Lemma command_settled (prog : string) (argv : list string) (w : World) :
  fst (command prog argv w) = Ok tt \/
  exists c, fst (command prog argv w) = Return c.
Proof.
  unfold command, do_set, do_clear, do_brightness.
  repeat match goal with
         | |- context [if ?b then _ else _] =>
             match b with
             | _ <? _ => destruct b
             | _ =? _ => destruct b
             | String.eqb _ _ => destruct b
             end
         end;
    try (left; reflexivity);
    apply try_catch_settled;
    match goal with |- fst (?m w) <> Diverge => cut (halts m); [by auto |] end;
    unfold save_changes, call; repeat halts_step.
Qed.

(** Every other command line falls through to the flush. *)
Lemma command_other (prog : string) (argv : list string) (w : World) :
  requested argv = None ->
  exists w', command prog argv w = (Ok tt, w') /\
             disk w' = disk w /\ config w' = config w /\ bus w' = bus w /\
             immediateWrite (max w') = immediateWrite (max w).
Proof.
  unfold requested, command, do_set, do_clear, do_brightness.
  intros Hreq.
  repeat match type of Hreq with
         | (if ?b then _ else _) = _ => destruct b eqn:?
         end; try discriminate;
    eexists; (split; [reflexivity | by split_and!]).
Qed.

Lemma grows_command (prog : string) (argv : list string) :
  holds (grows (fun e => is_command e = true)) (command prog argv).
Proof.
  unfold command, do_set, do_clear, do_brightness, save_changes.
  repeat first
    [ apply grows_call; [reflexivity |]
    | apply grows_emit; reflexivity
    | apply holds_try_catch;
        [typeclasses eauto | | intros ?; apply grows_emit; reflexivity]
    | apply grows_saveState
    | holds_step ].
Qed.

Lemma startup_halts (fuel : nat) (v : bool) (w : World) :
  module_count (disk w) <= 255 ->
  (256 <= fuel)%nat ->
  fst (startup fuel v w) <> Diverge.
Proof.
  intros Hc Hf. rewrite startup_run, prelude_run.
  unfold module_count in Hc.
  assert (Hl : forall n calls,
             (n <= 255)%nat ->
             fst (load_loop fuel 0 (configured v n calls w)) <> Diverge).
  { intros n calls Hn. apply load_loop_ends; simpl; try done.
    - unfold numDevices. simpl. rewrite length_replicate. lia.
    - unfold numDevices. simpl. rewrite length_replicate. lia. }
  destruct (configured_count (disk w)) as [count |]; simpl in Hc.
  - destruct (Z.ltb_spec count 0); [done |].
    specialize (Hl (Z.to_nat count)
                   [EvNumDevices count; EvWriteImmediately false]
                   ltac:(lia)).
    by destruct (load_loop _ _ _) as [[[] | c | e |] w2].
  - specialize (Hl 0%nat [EvWriteImmediately false] ltac:(lia)).
    by destruct (load_loop _ _ _) as [[[] | c | e |] w2].
Qed.

Lemma rejection_index (num : Z) (mu : Mutation) (c : Chain) :
  INT_MIN <= num <= INT_MAX ->
  ~ (0 <= num < numDevices c) ->
  rejection num mu c = Some (InvalidModuleNumber num).
Proof.
  intros Hr Hn. unfold rejection. rewrite invalid_module_valid by done.
  unfold valid_index.
  destruct (Z.leb_spec 0 num), (Z.ltb_spec num (numDevices c)); simpl;
    lia || done.
Qed.

Lemma rejection_level (num level : Z) (c : Chain) :
  INT_MIN <= num <= INT_MAX ->
  0 <= num < numDevices c ->
  ~ (0 <= level <= 15) ->
  rejection num (Brightness level) c = Some (BrightnessOutOfRange level).
Proof.
  intros Hr Hn Hl. unfold rejection. rewrite invalid_module_valid by done.
  unfold valid_index.
  destruct (Z.leb_spec 0 num), (Z.ltb_spec num (numDevices c)); simpl;
    try lia.
  destruct (Z.ltb_spec level 0), (Z.ltb_spec 15 level); simpl; lia || done.
Qed.

Lemma rejection_none (num : Z) (mu : Mutation) (c : Chain) :
  INT_MIN <= num <= INT_MAX ->
  rejection num mu c = None ->
  valid_index c num = true /\
  forall level, mu = Brightness level -> 0 <= level <= 15.
Proof.
  intros Hr. unfold rejection. rewrite invalid_module_valid by done.
  destruct (valid_index c num); simpl; [| done].
  intros H. split; [done |]. intros level ->.
  destruct (Z.ltb_spec level 0), (Z.ltb_spec 15 level); simpl in H;
    lia || done.
Qed.

(** The library's own index check. *)
Lemma mutate_out_of_range (w : World) (index : Z)
      (f : DisplayModule -> DisplayModule) :
  ~ (0 <= index < numDevices (max w)) ->
  mutate index f w = (Throw OutOfRange, w).
Proof.
  intros Hn. unfold mutate. rewrite bind_run. simpl. unfold valid_index.
  destruct (Z.leb_spec 0 index), (Z.ltb_spec index (numDevices (max w)));
    simpl; lia || done.
Qed.

(** A run whose start-up completes, in terms of the world it reaches. *)
Lemma run_after_startup (fuel : nat) (file : gmap string (gmap string string))
      (argv : list string) (w1 : World) :
  startup fuel (is_verbose argv) (initial file) = (Ok tt, w1) ->
  run fuel file argv =
  match command (arg argv 0) (shift argv) w1 with
  | (Ok _, w2) => call EvSendData sendData w2
  | (Return c, w2) => (Return c, w2)
  | (Throw e, w2) => (Throw e, w2)
  | (Diverge, w2) => (Diverge, w2)
  end.
Proof. intros H. unfold run. by rewrite main_run, H. Qed.

Lemma rejection_passes (num : Z) (mu : Mutation) (c : Chain) :
  INT_MIN <= num <= INT_MAX ->
  0 <= num < numDevices c ->
  (forall level, mu = Brightness level -> 0 <= level <= 15) ->
  rejection num mu c = None.
Proof.
  intros Hr Hn Hl. unfold rejection. rewrite invalid_module_valid by done.
  unfold valid_index.
  destruct (Z.leb_spec 0 num), (Z.ltb_spec num (numDevices c)); simpl;
    try lia.
  destruct mu as [v | | level]; try done.
  specialize (Hl level eq_refl).
  destruct (Z.ltb_spec level 0), (Z.ltb_spec 15 level); simpl; lia || done.
Qed.

(** The calls of a start-up from the initial world, by kind. *)
Lemma startup_trace_kinds (fuel : nat) (v : bool)
      (file : gmap string (gmap string string)) (r : Res unit) (w1 : World) :
  startup fuel v (initial file) = (r, w1) ->
  Forall (fun e => is_setup e = true \/ loaded_from file e \/ e = EvSetClean)
         (trace w1).
Proof.
  intros Hs.
  destruct (startup_facts _ _ _ _ _ Hs)
    as (_ & _ & (calls & loads & fin & Et & Fc & Fl & Hfin) & _).
  rewrite Et. simpl in Fl. rewrite !Forall_app. split_and!.
  - constructor.
  - unfold setup_calls. repeat (constructor; [by left |]). constructor.
  - eapply Forall_impl; [exact Fc | by left].
  - eapply Forall_impl; [exact Fl | intros; right; by left].
  - destruct r; subst; try done; try constructor.
    + right; by right.
    + constructor.
Qed.

Lemma startup_trace_no_command (fuel : nat) (v : bool)
      (file : gmap string (gmap string string)) (r : Res unit) (w1 : World)
      (e : Event) :
  startup fuel v (initial file) = (r, w1) ->
  is_command e = true \/ e = EvSendData ->
  e ∉ trace w1.
Proof.
  intros Hs He Hin.
  pose proof (startup_trace_kinds _ _ _ _ _ Hs) as Hk.
  rewrite Forall_forall in Hk. specialize (Hk e Hin).
  destruct Hk as [Hk | [(j & _ & -> & _) | ->]], He as [He | He];
    try discriminate; by destruct e.
Qed.

(** What follows start-up: the command's calls, then the flush. *)
Lemma grows_after_startup (prog : string) (argv : list string) :
  holds (grows (fun e => is_command e = true \/ e = EvSendData))
        (command prog argv;; call EvSendData sendData).
Proof.
  apply holds_bind; [typeclasses eauto | | intros _].
  - intros w. eapply grows_weaken; [| apply grows_command]. by left.
  - apply grows_call; [by right | apply grows_sendData].
Qed.

Lemma grows_load_loop (P : Event -> Prop) (fuel : nat) :
  (forall i, P (EvLoadState (moduleName i) i)) ->
  forall i, holds (grows P) (load_loop fuel i).
Proof.
  intros HP. induction fuel as [| fuel IH]; intros i.
  - apply holds_diverge. typeclasses eauto.
  - simpl load_loop. unfold load_body, config_has.
    repeat first [ apply IH
                 | apply grows_call; [apply HP |]
                 | apply grows_loadState
                 | holds_step ].
Qed.

(** Every load and every save of a run names its section after its index. *)
Lemma grows_main_named (fuel : nat) (argv : list string) :
  holds (grows named_by_index) (main fuel argv).
Proof.
  unfold main, startup, prelude, configure_modules, command, do_set, do_clear,
    do_brightness, save_changes.
  repeat first
    [ apply grows_load_loop; reflexivity
    | apply grows_call; [exact I || reflexivity |]
    | apply grows_emit; exact I
    | apply holds_try_catch;
        [typeclasses eauto | | intros ?; apply grows_emit; exact I]
    | apply grows_saveState
    | apply grows_sendData
    | holds_step ].
Qed.

Lemma to_string_positive (i : Z) :
  0 <= i ->
  to_string (i + 1) = NilZero.string_of_uint (N.to_uint (Z.to_N i + 1)).
Proof.
  intros Hi. unfold to_string.
  replace (Z.to_N i + 1)%N with (Z.to_N (i + 1)) by (rewrite Z2N.inj_add; lia).
  destruct (i + 1) as [| p | p] eqn:E; try lia. reflexivity.
Qed.

(** ** The claims *)

(** C2. A [set], [clear] or [brightness] command whose module index lies
    outside [0, numDevices) fails: [main] reports the invalid module number
    and returns -1, and the world is the one start-up left but for that
    report, so no module's value, hasValue, brightness, power or dirty flag
    has changed.  The device's own mutators reject such an index with
    [OutOfRange] and change nothing either. *)
Theorem invalid_index_rejected
        (fuel : nat) (file : gmap string (gmap string string))
        (argv : list string) (w1 : World) (num : Z) (mu : Mutation) :
  startup fuel (is_verbose argv) (initial file) = (Ok tt, w1) ->
  requested (shift argv) = Some (num, mu) ->
  ~ (0 <= num < numDevices (max w1)) ->
  run fuel file argv
  = (Return (-1), logged (EvCerr (InvalidModuleNumber num)) w1) /\
  modules (max (snd (run fuel file argv))) = modules (max w1) /\
  (forall (w : World) (index v level : Z) (on : bool),
      ~ (0 <= index < numDevices (max w)) ->
      setNumber index v w = (Throw OutOfRange, w) /\
      clear index w = (Throw OutOfRange, w) /\
      setBrightness index level w = (Throw OutOfRange, w) /\
      setPower index on w = (Throw OutOfRange, w)).
Proof.
  intros Hs Hreq Hn.
  pose proof (requested_range _ _ _ Hreq) as Hr.
  assert (Hrun : run fuel file argv
                 = (Return (-1), logged (EvCerr (InvalidModuleNumber num)) w1)).
  { rewrite (run_after_startup _ _ _ _ Hs).
    by rewrite (command_rejected _ _ _ _ _ _ Hreq
                                 (rejection_index _ _ _ Hr Hn)). }
  split_and!; [done | by rewrite Hrun |].
  intros w index v level on Hi. split_and!.
  - by apply mutate_out_of_range.
  - by apply mutate_out_of_range.
  - unfold setBrightness. rewrite bind_run. simpl. unfold valid_index.
    destruct (Z.leb_spec 0 index), (Z.ltb_spec index (numDevices (max w)));
      simpl; lia || done.
  - by apply mutate_out_of_range.
Qed.

(** C3. A [brightness] command on a valid module with a level outside
    [0, 15] fails before anything is changed: [main] reports the level and
    returns -1, and every module, its brightness included, is as start-up
    left it.  The device's own [setBrightness] rejects such a level with
    [InvalidArgument] and changes nothing. *)
Theorem brightness_level_rejected
        (fuel : nat) (file : gmap string (gmap string string))
        (argv : list string) (w1 : World) (num level : Z) :
  startup fuel (is_verbose argv) (initial file) = (Ok tt, w1) ->
  requested (shift argv) = Some (num, Brightness level) ->
  0 <= num < numDevices (max w1) ->
  ~ (0 <= level <= 15) ->
  run fuel file argv
  = (Return (-1), logged (EvCerr (BrightnessOutOfRange level)) w1) /\
  modules (max (snd (run fuel file argv))) = modules (max w1) /\
  (forall w : World,
      0 <= num < numDevices (max w) ->
      setBrightness num level w = (Throw InvalidArgument, w)).
Proof.
  intros Hs Hreq Hn Hl.
  pose proof (requested_range _ _ _ Hreq) as Hr.
  assert (Hrun : run fuel file argv
                 = (Return (-1), logged (EvCerr (BrightnessOutOfRange level)) w1)).
  { rewrite (run_after_startup _ _ _ _ Hs).
    by rewrite (command_rejected _ _ _ _ _ _ Hreq
                                 (rejection_level _ _ _ Hr Hn Hl)). }
  split_and!; [done | by rewrite Hrun |].
  intros w Hw. unfold setBrightness. rewrite bind_run. simpl.
  unfold valid_index.
  destruct (Z.leb_spec 0 num), (Z.ltb_spec num (numDevices (max w)));
    simpl; try lia.
  destruct (Z.leb_spec 0 level), (Z.leb_spec level 15); simpl; lia || done.
Qed.

(** C9. When a command fails its check (the module index is out of range,
    or the brightness level is outside [0, 15]), [main] returns -1 and has
    called neither the store's save nor the flush: the state file is the one
    the run started from and nothing has been written to the bus. *)
Theorem validation_failure_changes_nothing
        (fuel : nat) (file : gmap string (gmap string string))
        (argv : list string) (w1 : World) (num : Z) (mu : Mutation) :
  startup fuel (is_verbose argv) (initial file) = (Ok tt, w1) ->
  requested (shift argv) = Some (num, mu) ->
  (~ (0 <= num < numDevices (max w1)) \/
   exists level, mu = Brightness level /\ ~ (0 <= level <= 15)) ->
  fst (run fuel file argv) = Return (-1) /\
  (EvCfgSave ∉ trace (snd (run fuel file argv))) /\
  (EvSendData ∉ trace (snd (run fuel file argv))) /\
  disk (snd (run fuel file argv)) = file /\
  bus (snd (run fuel file argv)) = [].
Proof.
  intros Hs Hreq Hbad.
  pose proof (requested_range _ _ _ Hreq) as Hr.
  assert (exists d, rejection num mu (max w1) = Some d) as [d Hd].
  { destruct (decide (0 <= num < numDevices (max w1))) as [Hv | Hv].
    - destruct Hbad as [Hn | (level & -> & Hl)]; [done |].
      eexists. by apply rejection_level.
    - eexists. by apply rejection_index. }
  rewrite (run_after_startup _ _ _ _ Hs).
  rewrite (command_rejected _ _ _ _ _ _ Hreq Hd). simpl.
  destruct (startup_facts _ _ _ _ _ Hs) as (Hdisk & Hbus & _).
  split_and!; auto.
  - rewrite elem_of_app, list_elem_of_singleton. intros [Hin | ?]; [| done].
    revert Hin. eapply startup_trace_no_command; eauto.
  - rewrite elem_of_app, list_elem_of_singleton. intros [Hin | ?]; [| done].
    revert Hin. eapply startup_trace_no_command; eauto.
Qed.

(** C10. The [sync] command marks every module dirty and leaves each
    module's value, hasValue, brightness and power as they were; the run
    neither saves a module nor marks or saves the store, so the store stays
    clean and the state file is the one the run started from. *)
Theorem sync_marks_dirty_only
        (fuel : nat) (file : gmap string (gmap string string))
        (argv : list string) (w1 : World) :
  startup fuel (is_verbose argv) (initial file) = (Ok tt, w1) ->
  1 < argc (shift argv) ->
  arg (shift argv) 1 = cmdSync ->
  command (arg argv 0) (shift argv) w1 = (Ok tt, dirtied w1) /\
  Forall2 (fun m m' => value m' = value m /\ hasValue m' = hasValue m /\
                       brightness m' = brightness m /\
                       powered m' = powered m /\ dirty m' = true)
          (modules (max w1)) (modules (max (dirtied w1))) /\
  config (dirtied w1) = config w1 /\
  config (snd (run fuel file argv)) = mkIniState file false /\
  disk (snd (run fuel file argv)) = file /\
  Forall (fun e => e <> EvCfgSave /\ e <> EvMarkDirty /\
                   forall name i, e <> EvSaveState name i)
         (trace (snd (run fuel file argv))).
Proof.
  intros Hs Hc Ha.
  pose proof (command_sync (arg argv 0) _ w1 Hc Ha) as Hcmd.
  destruct (startup_facts _ _ _ _ _ Hs)
    as (Hdisk & Hbus & _ & _ & Hok).
  destruct (Hok eq_refl) as (Hcfg & Him & _ & _).
  pose proof (startup_trace_kinds _ _ _ _ _ Hs) as Hk.
  assert (Hquiet : Forall (fun e => e <> EvCfgSave /\ e <> EvMarkDirty /\
                                    forall name i, e <> EvSaveState name i)
                          (trace w1)).
  { eapply Forall_impl; [exact Hk |].
    intros e [He | [(j & _ & -> & _) | ->]]; [| done | done].
    by destruct e. }
  split_and!.
  - done.
  - simpl. apply Forall2_fmap_r, Forall_Forall2_diag, Forall_true.
    by intros m.
  - done.
  - rewrite (run_after_startup _ _ _ _ Hs), Hcmd, flush_run by done.
    by destruct (busAccepts _).
  - rewrite (run_after_startup _ _ _ _ Hs), Hcmd, flush_run by done.
    by destruct (busAccepts _).
  - rewrite (run_after_startup _ _ _ _ Hs), Hcmd, flush_run by done.
    destruct (busAccepts _); simpl;
      rewrite !Forall_app; split_and!; auto; by repeat constructor.
Qed.

(** C1, as the code has it.  A run that applies a mutation performs its
    steps in this order: the store is loaded and the modules' states are
    read, the mutation is applied, the module is saved into its section, the
    store is marked dirty and saved, and only then the chain is flushed to
    the bus, after which [main] ends. *)
Theorem mutation_run_order
        (fuel : nat) (file : gmap string (gmap string string))
        (argv : list string) (w1 : World) (num : Z) (mu : Mutation) :
  startup fuel (is_verbose argv) (initial file) = (Ok tt, w1) ->
  requested (shift argv) = Some (num, mu) ->
  0 <= num < numDevices (max w1) ->
  (forall level, mu = Brightness level -> 0 <= level <= 15) ->
  (exists calls loads,
      trace (snd (run fuel file argv))
      = setup_calls (is_verbose argv) ++ calls ++ loads ++
        [EvSetClean; mutation_event num mu;
         EvSaveState (moduleName num) num; EvMarkDirty; EvCfgSave;
         EvSendData] /\
      Forall (fun e => is_setup e = true) calls /\
      Forall (loaded_from file) loads) /\
  (fst (run fuel file argv) = Ok tt \/
   fst (run fuel file argv) = Throw TransportError).
Proof.
  intros Hs Hreq Hn Hl.
  pose proof (requested_range _ _ _ Hreq) as Hr.
  pose proof (rejection_passes _ _ _ Hr Hn Hl) as Hrej.
  destruct (rejection_none _ _ _ Hr Hrej) as [Hv _].
  destruct (valid_index_lookup _ _ Hv) as (_ & m & Hm).
  destruct (startup_facts _ _ _ _ _ Hs)
    as (_ & _ & (calls & loads & fin & Et & Fc & Fl & ->) & _ & Hok).
  destruct (Hok eq_refl) as (_ & Him & _ & _).
  rewrite (run_after_startup _ _ _ _ Hs).
  rewrite (command_applied _ _ _ _ _ _ Hreq Hrej Him Hm).
  rewrite flush_run by done.
  split.
  - exists calls, loads. split_and!; auto.
    destruct (busAccepts _); simpl; rewrite Et; simpl;
      rewrite <- !app_assoc; reflexivity.
  - destruct (busAccepts _); simpl; auto.
Qed.

(** C5. After a successful mutation the module's state is written into its
    section and the store is marked dirty before the store's save is called:
    the store was clean after start-up, a save of a clean store writes
    nothing, and yet the state file ends up as the file the run started from
    with the module's section replaced by the module's new state. *)
Theorem mutation_saved_before_store_save
        (fuel : nat) (file : gmap string (gmap string string))
        (argv : list string) (w1 : World) (num : Z) (mu : Mutation) :
  startup fuel (is_verbose argv) (initial file) = (Ok tt, w1) ->
  requested (shift argv) = Some (num, mu) ->
  0 <= num < numDevices (max w1) ->
  (forall level, mu = Brightness level -> 0 <= level <= 15) ->
  exists m sec,
    modules (max w1) !! Z.to_nat num = Some m /\
    let m' := apply_mutation mu m in
    sec = save_module m' (default ∅ (file !! moduleName num)) /\
    sec !! keyHasValue = Some (bool_text (hasValue m')) /\
    sec !! keyBrightness = Some (to_string (brightness m')) /\
    sec !! keyPowered = Some (bool_text (powered m')) /\
    (forall v, value m' = Some v -> sec !! keyValue = Some (to_string v)) /\
    isDirty (config w1) = false /\
    (forall w, isDirty (config w) = false -> config_save w = (Ok tt, w)) /\
    disk (snd (run fuel file argv)) = <[moduleName num := sec]> file /\
    exists pre,
      trace (snd (run fuel file argv))
      = pre ++ [mutation_event num mu; EvSaveState (moduleName num) num;
                EvMarkDirty; EvCfgSave; EvSendData].
Proof.
  intros Hs Hreq Hn Hl.
  pose proof (requested_range _ _ _ Hreq) as Hr.
  pose proof (rejection_passes _ _ _ Hr Hn Hl) as Hrej.
  destruct (rejection_none _ _ _ Hr Hrej) as [Hv _].
  destruct (valid_index_lookup _ _ Hv) as (_ & m & Hm).
  destruct (startup_facts _ _ _ _ _ Hs) as (_ & _ & _ & _ & Hok).
  destruct (Hok eq_refl) as (Hcfg & Him & _ & _). simpl in Hcfg.
  exists m, (save_module (apply_mutation mu m)
                         (default ∅ (file !! moduleName num))).
  split; [done |]. simpl.
  split_and!; try done.
  - unfold save_module.
    rewrite lookup_insert_ne, lookup_insert_ne, lookup_insert_eq; done.
  - unfold save_module. rewrite lookup_insert_ne, lookup_insert_eq; done.
  - unfold save_module. by rewrite lookup_insert_eq.
  - intros v Ev. unfold save_module. rewrite Ev.
    do 3 (rewrite lookup_insert_ne by done). by rewrite lookup_insert_eq.
  - by rewrite Hcfg.
  - intros w Hw. unfold config_save. rewrite bind_run. simpl. by rewrite Hw.
  - rewrite (run_after_startup _ _ _ _ Hs).
    rewrite (command_applied _ _ _ _ _ _ Hreq Hrej Him Hm).
    rewrite flush_run by done.
    destruct (busAccepts _); simpl; unfold section_of; by rewrite Hcfg.
  - rewrite (run_after_startup _ _ _ _ Hs).
    rewrite (command_applied _ _ _ _ _ _ Hreq Hrej Him Hm).
    rewrite flush_run by done. exists (trace w1).
    destruct (busAccepts _); simpl; rewrite <- !app_assoc; reflexivity.
Qed.

(** C8. A run whose start-up completes and whose command fails no check
    ends with the flush, called once and whatever the command was: a
    mutation, [reset], [sync], a malformed or unknown command, or none.  The
    flush hands the transport one frame per module, in index order, dirty
    or not. *)
Theorem flush_exactly_once
        (fuel : nat) (file : gmap string (gmap string string))
        (argv : list string) (w1 : World) :
  startup fuel (is_verbose argv) (initial file) = (Ok tt, w1) ->
  rejected (shift argv) (max w1) = None ->
  exists w2,
    command (arg argv 0) (shift argv) w1 = (Ok tt, w2) /\
    let frames := render <$> modules (max w2) in
    trace (snd (run fuel file argv)) = trace w2 ++ [EvSendData] /\
    (EvSendData ∉ trace w2) /\
    length frames = length (modules (max w2)) /\
    (forall i m, modules (max w2) !! i = Some m ->
                 frames !! i = Some (render m)) /\
    if busAccepts (WriteAll frames)
    then fst (run fuel file argv) = Ok tt /\
         bus (snd (run fuel file argv)) = [WriteAll frames]
    else fst (run fuel file argv) = Throw TransportError /\
         bus (snd (run fuel file argv)) = [].
Proof.
  intros Hs Hrej.
  destruct (startup_facts _ _ _ _ _ Hs) as (_ & Hbus & _ & _ & Hok).
  destruct (Hok eq_refl) as (_ & Him & _ & _). simpl in Hbus.
  assert (exists w2, command (arg argv 0) (shift argv) w1 = (Ok tt, w2) /\
                     immediateWrite (max w2) = false /\ bus w2 = [])
    as (w2 & Hcmd & Him2 & Hbus2).
  { unfold rejected in Hrej.
    destruct (requested (shift argv)) as [[num mu] |] eqn:Hreq.
    - pose proof (requested_range _ _ _ Hreq) as Hr.
      destruct (rejection_none _ _ _ Hr Hrej) as [Hv _].
      destruct (valid_index_lookup _ _ Hv) as (_ & m & Hm).
      eexists. split; [by eapply command_applied |]. by simpl.
    - destruct (command_other (arg argv 0) _ w1 Hreq)
        as (w2 & Hcmd & _ & _ & Hb & Hi).
      exists w2. split_and!; congruence. }
  exists w2. split; [done |]. simpl.
  rewrite (run_after_startup _ _ _ _ Hs), Hcmd, flush_run by done.
  split_and!.
  - by destruct (busAccepts _).
  - pose proof (grows_command (arg argv 0) (shift argv) w1) as (t & Et & Ft).
    rewrite Hcmd in Et. simpl in Et. rewrite Et, elem_of_app.
    intros [Hin | Hin].
    + revert Hin. eapply startup_trace_no_command; eauto.
    + rewrite Forall_forall in Ft. by specialize (Ft _ Hin).
  - by rewrite length_fmap.
  - intros i m Hm. by rewrite list_lookup_fmap, Hm.
  - destruct (busAccepts _); simpl; by rewrite Hbus2.
Qed.

(** C6. The section of the module with zero-based index [i] is named by
    the prefix, a colon and the 1-based number [i+1]; index 0 gives
    ["display:1"].  Every load and every save of every run uses that name
    for its module. *)
Theorem moduleName_one_based :
  (forall i, 0 <= i < INT_MAX ->
             moduleName i = spec_section_name sectionPrefix i) /\
  moduleName 0 = "display:1" /\
  (forall (fuel : nat) (file : gmap string (gmap string string))
          (argv : list string) (name : string) (i : Z),
      EvLoadState name i ∈ trace (snd (run fuel file argv)) \/
      EvSaveState name i ∈ trace (snd (run fuel file argv)) ->
      name = moduleName i).
Proof.
  split_and!.
  - intros i Hi. unfold moduleName, spec_section_name, sectionPrefix.
    rewrite wrap_int_small by (unfold INT_MIN, INT_MAX in *; lia).
    rewrite to_string_positive by lia. reflexivity.
  - reflexivity.
  - intros fuel file argv name i Hin.
    destruct (grows_main_named fuel argv (initial file)) as (t & Et & Ft).
    fold (run fuel file argv) in Et. simpl in Et. rewrite Et in Hin.
    rewrite Forall_forall in Ft.
    destruct Hin as [Hin | Hin]; apply (Ft _ Hin).
Qed.

(** C7. A module whose section does not exist is passed over by the load
    loop without error: its loop body does nothing, no load is called for
    it, and after start-up the module is in its default state (no value,
    default brightness, powered, clean). *)
Theorem missing_section_skipped
        (fuel : nat) (v : bool) (file : gmap string (gmap string string))
        (r : Res unit) (w1 : World) (i : Z) :
  startup fuel v (initial file) = (r, w1) ->
  0 <= i < numDevices (max w1) ->
  file !! moduleName i = None ->
  (forall w, sections (config w) !! moduleName i = None ->
             load_body i w = (Ok tt, w)) /\
  (forall name, EvLoadState name i ∉ trace w1) /\
  modules (max w1) !! Z.to_nat i = Some defaultModule /\
  hasValue defaultModule = false /\
  brightness defaultModule = defaultBrightness /\
  powered defaultModule = true.
Proof.
  intros Hs Hi Hf.
  destruct (startup_facts _ _ _ _ _ Hs) as (_ & _ & _ & Hk & _).
  pose proof (startup_trace_kinds _ _ _ _ _ Hs) as Hkinds.
  split_and!; try done.
  - intros w Hw. by apply load_body_missing.
  - intros name Hin. rewrite Forall_forall in Hkinds.
    destruct (Hkinds _ Hin) as [He | [(j & _ & [= -> <-] & Hsome) | He]];
      try discriminate.
    rewrite Hf in Hsome. by destruct Hsome.
  - apply Hk.
    + simpl. by rewrite Z2Nat.id by lia.
    + unfold numDevices in Hi. lia.
Qed.

(** C4. In every run the trace has the shape: the set-up calls, then the
    loads of the load loop, then [setClean], then the command's calls and
    the flush.  So [setClean] comes after every load and before every
    mutation, save and flush; when the run got past start-up it has been
    called, and every module was clean at that point.  The load loop ends
    whenever the configured module count fits its 8-bit counter. *)
Theorem setClean_after_load_loop
        (fuel : nat) (file : gmap string (gmap string string))
        (argv : list string) :
  (exists calls loads rest,
      trace (snd (run fuel file argv))
      = setup_calls (is_verbose argv) ++ calls ++ loads ++ rest /\
      Forall (fun e => is_setup e = true) calls /\
      Forall (loaded_from file) loads /\
      (rest = [] \/
       exists cmds, rest = EvSetClean :: cmds /\
                    Forall (fun e => is_command e = true \/ e = EvSendData)
                           cmds)) /\
  (EvSetClean ∉ trace (snd (run fuel file argv)) ->
   fst (run fuel file argv) = Diverge \/
   exists e, fst (run fuel file argv) = Throw e) /\
  (forall w1,
      startup fuel (is_verbose argv) (initial file) = (Ok tt, w1) ->
      last (trace w1) = Some EvSetClean /\
      Forall (fun m => dirty m = false) (modules (max w1))) /\
  (module_count file <= 255 -> (256 <= fuel)%nat ->
   fst (run fuel file argv) <> Diverge).
Proof.
  destruct (startup fuel (is_verbose argv) (initial file)) as [r w1] eqn:Hs.
  destruct (startup_facts _ _ _ _ _ Hs)
    as (_ & _ & (calls & loads & fin & Et & Fc & Fl & Hfin) & _ & Hok).
  change (trace (initial file)) with (@nil Event) in Et.
  rewrite app_nil_l in Et. simpl in Fl.
  assert (Hrun : match r with
                 | Ok _ => run fuel file argv
                           = (command (arg argv 0) (shift argv);;
                              call EvSendData sendData) w1
                 | _ => run fuel file argv = (r, w1)
                 end).
  { unfold run, main. rewrite bind_run, Hs. by destruct r as [[] | | |]. }
  split_and!.
  - exists calls, loads.
    destruct r as [[] | c | e |]; try done; subst fin.
    + destruct (grows_after_startup (arg argv 0) (shift argv) w1)
        as (t & Et2 & Ft2).
      rewrite <- Hrun in Et2. rewrite Et2, Et.
      exists (EvSetClean :: t). split_and!; auto.
      * rewrite <- !app_assoc. reflexivity.
      * right. by exists t.
    + exists []. rewrite Hrun. simpl. by split_and!; auto.
    + exists []. rewrite Hrun. simpl. by split_and!; auto.
  - destruct r as [[] | c | e |]; try done; subst fin.
    + intros Hnot. exfalso. apply Hnot.
      destruct (grows_after_startup (arg argv 0) (shift argv) w1)
        as (t & Et2 & Ft2).
      rewrite <- Hrun in Et2. rewrite Et2, Et.
      rewrite !elem_of_app. left. right. right. right.
      apply list_elem_of_singleton. reflexivity.
    + intros _. right. exists e. by rewrite Hrun.
    + intros _. left. by rewrite Hrun.
  - intros w1' [= -> <-]. subst fin.
    destruct (Hok eq_refl) as (_ & _ & _ & Hclean).
    split; [| done]. rewrite Et.
    rewrite !app_assoc. apply last_snoc.
  - intros Hc Hf.
    pose proof (startup_halts fuel (is_verbose argv) (initial file) Hc Hf)
      as Hh.
    rewrite Hs in Hh. simpl in Hh.
    destruct r as [[] | c | e |]; try done; rewrite Hrun; try done.
    rewrite bind_run.
    destruct (command_settled (arg argv 0) (shift argv) w1)
      as [Hcmd | [c Hcmd]];
      destruct (command (arg argv 0) (shift argv) w1) as [r2 w2];
      simpl in Hcmd; subst r2; [| done].
    unfold call, sendData. run_m.
    destruct (immediateWrite (max w2)); [done |].
    by destruct (busAccepts _).
Qed.


(** ** More of [main] *)

(** *** Command lines that change nothing (lines 100-104, 128-130, 154-156,
    184-189) *)

Lemma eqb_known (cmd : string) :
  cmd ∉ known_commands ->
  String.eqb cmdReset cmd = false /\ String.eqb cmdSync cmd = false /\
  String.eqb cmdSet cmd = false /\ String.eqb cmdClear cmd = false /\
  String.eqb cmdBrightness cmd = false.
Proof.
  unfold known_commands. intros Hn.
  split_and!; apply String.eqb_neq; intros <-; apply Hn; set_solver.
Qed.

Lemma command_usage (prog : string) (argv : list string) (w : World) (n : Z) :
  1 < argc argv ->
  expected_argc (arg argv 1) = Some n ->
  argc argv <> n ->
  command prog argv w = (Ok tt, logged (EvCerr (Usage prog (arg argv 1))) w).
Proof.
  intros Hc He Hn. unfold command, expected_argc in *.
  destruct (Z.ltb_spec 1 (argc argv)); [| lia].
  destruct (String.eqb cmdReset (arg argv 1)) eqn:E1.
  { apply String.eqb_eq in E1. rewrite <- E1 in He. discriminate He. }
  destruct (String.eqb cmdSync (arg argv 1)) eqn:E2.
  { apply String.eqb_eq in E2. rewrite <- E2 in He. discriminate He. }
  destruct (String.eqb cmdSet (arg argv 1)) eqn:E3.
  { apply String.eqb_eq in E3. injection He as <-. unfold do_set.
    destruct (Z.eqb_spec (argc argv) 4); [done |]. by rewrite <- E3. }
  destruct (String.eqb cmdClear (arg argv 1)) eqn:E4.
  { apply String.eqb_eq in E4. injection He as <-. unfold do_clear.
    destruct (Z.eqb_spec (argc argv) 3); [done |]. by rewrite <- E4. }
  destruct (String.eqb cmdBrightness (arg argv 1)) eqn:E5; [| done].
  apply String.eqb_eq in E5. injection He as <-. unfold do_brightness.
  destruct (Z.eqb_spec (argc argv) 4); [done |]. by rewrite <- E5.
Qed.

Lemma command_unknown (prog : string) (argv : list string) (w : World) :
  1 < argc argv ->
  arg argv 1 ∉ known_commands ->
  command prog argv w
  = (Ok tt, logged (EvCerr (UnknownCommand (arg argv 1))) w).
Proof.
  intros Hc Hk. unfold command.
  destruct (Z.ltb_spec 1 (argc argv)); [| lia].
  destruct (eqb_known _ Hk) as (-> & -> & -> & -> & ->). reflexivity.
Qed.

Lemma command_none (prog : string) (argv : list string) (w : World) :
  argc argv <= 1 -> command prog argv w = (Ok tt, w).
Proof.
  intros Hc. unfold command. by destruct (Z.ltb_spec 1 (argc argv)); [lia |].
Qed.

Lemma command_reset (prog : string) (argv : list string) (w : World) :
  1 < argc argv ->
  arg argv 1 = cmdReset ->
  command prog argv w = (Ok tt, was_reset w).
Proof.
  intros Hc Ha. unfold command.
  destruct (Z.ltb_spec 1 (argc argv)); [| lia].
  rewrite Ha. reflexivity.
Qed.

(** A run whose command falls through, in terms of the flush. *)
Lemma run_falls_through (fuel : nat) (file : gmap string (gmap string string))
      (argv : list string) (w1 w2 : World) :
  startup fuel (is_verbose argv) (initial file) = (Ok tt, w1) ->
  command (arg argv 0) (shift argv) w1 = (Ok tt, w2) ->
  immediateWrite (max w2) = immediateWrite (max w1) ->
  run fuel file argv = flush_of w2.
Proof.
  intros Hs Hcmd Hi.
  destruct (startup_facts _ _ _ _ _ Hs) as (_ & _ & _ & _ & Hok).
  destruct (Hok eq_refl) as (_ & Him & _ & _).
  rewrite (run_after_startup _ _ _ _ Hs), Hcmd, flush_run by congruence.
  reflexivity.
Qed.

(** X1. A [set], [clear] or [brightness] command with the wrong number of
    arguments only writes its usage line: no module and no section is
    touched, the chain is still flushed as start-up left it, and [main] does
    not return -1. *)
Theorem wrong_argument_count_only_reports
        (fuel : nat) (file : gmap string (gmap string string))
        (argv : list string) (w1 : World) (n : Z) :
  startup fuel (is_verbose argv) (initial file) = (Ok tt, w1) ->
  1 < argc (shift argv) ->
  expected_argc (arg (shift argv) 1) = Some n ->
  argc (shift argv) <> n ->
  run fuel file argv
  = flush_of (logged (EvCerr (Usage (arg argv 0) (arg (shift argv) 1))) w1) /\
  disk (snd (run fuel file argv)) = file /\
  (forall c, fst (run fuel file argv) <> Return c).
Proof.
  intros Hs Hc He Hn.
  pose proof (command_usage (arg argv 0) _ w1 _ Hc He Hn) as Hcmd.
  pose proof (run_falls_through _ _ _ _ _ Hs Hcmd eq_refl) as Hrun.
  destruct (startup_facts _ _ _ _ _ Hs) as (Hd & _).
  rewrite Hrun. unfold flush_of.
  split_and!; [done | |]; by destruct (busAccepts _).
Qed.

(** X2. A first word that is none of [reset], [sync], [set], [clear] and
    [brightness] -- the declared but unhandled [on] and [off] included -- is
    reported as an unknown command; nothing is changed, the chain is still
    flushed and [main] does not return -1. *)
Theorem unknown_command_only_reports
        (fuel : nat) (file : gmap string (gmap string string))
        (argv : list string) (w1 : World) :
  startup fuel (is_verbose argv) (initial file) = (Ok tt, w1) ->
  1 < argc (shift argv) ->
  arg (shift argv) 1 ∉ known_commands ->
  run fuel file argv
  = flush_of (logged (EvCerr (UnknownCommand (arg (shift argv) 1))) w1) /\
  disk (snd (run fuel file argv)) = file /\
  (forall c, fst (run fuel file argv) <> Return c) /\
  (cmdOn ∉ known_commands) /\ (cmdOff ∉ known_commands).
Proof.
  intros Hs Hc Hk.
  pose proof (command_unknown (arg argv 0) _ w1 Hc Hk) as Hcmd.
  pose proof (run_falls_through _ _ _ _ _ Hs Hcmd eq_refl) as Hrun.
  destruct (startup_facts _ _ _ _ _ Hs) as (Hd & _).
  rewrite Hrun. unfold flush_of.
  split_and!; [done | | | |]; try (by destruct (busAccepts _)).
  - unfold known_commands. rewrite !elem_of_cons, elem_of_nil.
    intros [H | [H | [H | [H | [H | H]]]]]; done.
  - unfold known_commands. rewrite !elem_of_cons, elem_of_nil.
    intros [H | [H | [H | [H | [H | H]]]]]; done.
Qed.

(** X3. Without a command word the run is start-up followed by the flush:
    the chain is written as it was loaded and the state file stays as it
    was. *)
Theorem no_command_flushes_loaded_state
        (fuel : nat) (file : gmap string (gmap string string))
        (argv : list string) (w1 : World) :
  startup fuel (is_verbose argv) (initial file) = (Ok tt, w1) ->
  argc (shift argv) <= 1 ->
  run fuel file argv = flush_of w1 /\
  disk (snd (run fuel file argv)) = file.
Proof.
  intros Hs Hc.
  pose proof (command_none (arg argv 0) _ w1 Hc) as Hcmd.
  pose proof (run_falls_through _ _ _ _ _ Hs Hcmd eq_refl) as Hrun.
  destruct (startup_facts _ _ _ _ _ Hs) as (Hd & _).
  rewrite Hrun. unfold flush_of. split; [done |].
  by destruct (busAccepts _).
Qed.

(** X4. The [reset] command looks at nothing after its word: the device is
    reset and flushed, no module is saved, the store is neither marked nor
    saved, and the state file stays as it was. *)
Theorem reset_saves_nothing
        (fuel : nat) (file : gmap string (gmap string string))
        (argv : list string) (w1 : World) :
  startup fuel (is_verbose argv) (initial file) = (Ok tt, w1) ->
  1 < argc (shift argv) ->
  arg (shift argv) 1 = cmdReset ->
  run fuel file argv = flush_of (was_reset w1) /\
  disk (snd (run fuel file argv)) = file /\
  config (snd (run fuel file argv)) = mkIniState file false /\
  Forall (fun e => e <> EvCfgSave /\ e <> EvMarkDirty /\
                   forall name i, e <> EvSaveState name i)
         (trace (snd (run fuel file argv))).
Proof.
  intros Hs Hc Ha.
  pose proof (command_reset (arg argv 0) _ w1 Hc Ha) as Hcmd.
  pose proof (run_falls_through _ _ _ _ _ Hs Hcmd eq_refl) as Hrun.
  destruct (startup_facts _ _ _ _ _ Hs) as (Hd & _ & _ & _ & Hok).
  destruct (Hok eq_refl) as (Hcfg & _).
  pose proof (startup_trace_kinds _ _ _ _ _ Hs) as Hk.
  assert (Hquiet : Forall (fun e => e <> EvCfgSave /\ e <> EvMarkDirty /\
                                    forall name i, e <> EvSaveState name i)
                          (trace w1)).
  { eapply Forall_impl; [exact Hk |].
    intros e [He | [(j & _ & -> & _) | ->]]; [| done | done].
    by destruct e. }
  rewrite Hrun. unfold flush_of.
  split_and!; [done | | |]; destruct (busAccepts _); simpl; try done;
    rewrite !Forall_app; split_and!; auto; by repeat constructor.
Qed.


(** *** The exit status (lines 114, 126, 139, 152, 166, 170, 182) *)

Lemma exits_early_bind {A} (m : M A) (f : A -> M unit) :
  (forall w c, fst (m w) <> Return c) ->
  (forall a, exits_early (f a)) ->
  exits_early (m ≫= f).
Proof.
  intros Hm Hf w. rewrite bind_run. specialize (Hm w).
  destruct (m w) as [[a | c | e |] w']; simpl in *; try done.
  - apply Hf.
  - by destruct (Hm c).
Qed.

Lemma exits_early_report (d : Diag) :
  exits_early (emit (EvCerr d);; exit (-1)).
Proof.
  intros w c. simpl. intros [= <-]. split; [done |].
  exists d. apply last_snoc.
Qed.

Lemma exits_early_plain (m : M unit) : plain m -> exits_early m.
Proof.
  intros Hp w c Hr. specialize (Hp w). rewrite Hr in Hp. done.
Qed.

Lemma plain_no_return {A} (m : M A) :
  plain m -> forall w c, fst (m w) <> Return c.
Proof. intros Hp w c Hr. specialize (Hp w). by rewrite Hr in Hp. Qed.

Lemma exits_early_try_catch (body : M unit) :
  exits_early body -> exits_early (try_catch body).
Proof.
  intros Hb w. unfold try_catch. specialize (Hb w).
  destruct (body w) as [[[] | c | e |] w']; simpl in *; try done.
  apply exits_early_report.
Qed.

Lemma plain_save_changes name num : plain (save_changes name num).
Proof. unfold save_changes, call, saveState. repeat plain_step. Qed.

Lemma plain_get_max : plain get_max.
Proof. by intros w. Qed.

Lemma exits_early_command (prog : string) (argv : list string) :
  exits_early (command prog argv).
Proof.
  unfold command, do_set, do_clear, do_brightness.
  repeat match goal with
         | |- exits_early (if ?b then _ else _) => destruct b
         end;
    try (apply exits_early_plain; unfold call; by repeat plain_step);
    apply exits_early_try_catch; cbv zeta;
    (apply exits_early_bind; [apply plain_no_return, plain_get_max | intros c]);
    repeat match goal with
           | |- exits_early (if ?b then _ else _) => destruct b
           end;
    try apply exits_early_report;
    apply exits_early_plain; unfold call;
    (apply plain_bind; [by repeat plain_step | intros _; apply plain_save_changes]).
Qed.

(** X5. Whenever [main] returns early its status is -1, the last thing it
    did was to write a diagnostic, and neither the store's save nor the flush
    was called in that run, whatever the state file and the arguments. *)
Theorem early_return_is_minus_one
        (fuel : nat) (file : gmap string (gmap string string))
        (argv : list string) (c : Z) :
  fst (run fuel file argv) = Return c ->
  c = -1 /\
  (exists d, last (trace (snd (run fuel file argv))) = Some (EvCerr d)) /\
  (EvSendData ∉ trace (snd (run fuel file argv))).
Proof.
  unfold run. rewrite main_run.
  destruct (startup fuel (is_verbose argv) (initial file)) as [r w1] eqn:Hs.
  destruct (startup_facts _ _ _ _ _ Hs)
    as (_ & _ & (calls & loads & fin & _ & _ & _ & Hfin) & _).
  destruct r as [[] | c' | e |]; simpl; try done.
  pose proof (exits_early_command (arg argv 0) (shift argv) w1) as He.
  pose proof (grows_command (arg argv 0) (shift argv) w1) as (t & Et & Ft).
  destruct (command (arg argv 0) (shift argv) w1) as [[[] | c' | e |] w2];
    simpl in *; try done.
  - intros Hr. exfalso.
    assert (Hp : plain (call EvSendData sendData))
      by (unfold call, sendData; repeat plain_step).
    specialize (Hp w2). by rewrite Hr in Hp.
  - intros [= ->]. destruct (He c eq_refl) as [-> Hd].
    split_and!; [done | done |].
    rewrite Et, elem_of_app. intros [Hin | Hin].
    + revert Hin. eapply startup_trace_no_command; eauto.
    + rewrite Forall_forall in Ft. by specialize (Ft _ Hin).
Qed.




(** *** Numbers and names (lines 50-52, 108-110) *)

Lemma atoi_digits_stops (rest : string) (acc : Z) :
  stops rest -> atoi_digits rest acc = acc.
Proof. destruct rest as [| c r]; simpl; [done |]. by intros ->. Qed.

Lemma atoi_digits_acc (rest : string) (Hrest : stops rest) (d : uint) :
  forall p : positive,
    atoi_digits (NilEmpty.string_of_uint d +:+ rest) (Z.pos p)
    = Z.pos (Pos.of_uint_acc d p).
Proof.
  induction d; intros p; simpl;
    try (rewrite <- IHd; f_equal; lia).
  by apply atoi_digits_stops.
Qed.

Lemma atoi_digits_uint (rest : string) (Hrest : stops rest) (d : uint) :
  atoi_digits (NilEmpty.string_of_uint d +:+ rest) 0
  = Z.of_N (Pos.of_uint d).
Proof.
  induction d; simpl;
    try (change (atoi_digits (NilEmpty.string_of_uint d +:+ rest) 0
                 = Z.of_N (Pos.of_uint d)); exact IHd);
    try (apply (atoi_digits_acc rest Hrest d)).
  by apply atoi_digits_stops.
Qed.

Lemma string_of_uint_pos (p : positive) :
  NilZero.string_of_uint (Pos.to_uint p)
  = NilEmpty.string_of_uint (Pos.to_uint p).
Proof.
  pose proof (DecimalPos.Unsigned.to_uint_nonnil p) as Hn.
  unfold NilZero.string_of_uint. by destruct (Pos.to_uint p).
Qed.

(** A decimal number followed by text [atoi] does not read. *)
Lemma atoi_digits_positive (rest : string) (p : positive) :
  stops rest ->
  atoi_digits (NilZero.string_of_uint (Pos.to_uint p) +:+ rest) 0 = Z.pos p.
Proof.
  intros Hrest. rewrite string_of_uint_pos, atoi_digits_uint by done.
  by rewrite DecimalPos.Unsigned.of_to.
Qed.

Lemma uint_head_digit (p : positive) (rest : string) :
  exists c r,
    NilZero.string_of_uint (Pos.to_uint p) +:+ rest = String c r /\
    is_space c = false /\ c <> "-"%char /\ c <> "+"%char.
Proof.
  rewrite string_of_uint_pos.
  pose proof (DecimalPos.Unsigned.to_uint_nonnil p) as Hn.
  destruct (Pos.to_uint p); try done; simpl; eexists _, _;
    (split; [reflexivity | by split_and!]).
Qed.

Lemma atoi_unsigned (c : ascii) (r : string) :
  is_space c = false -> c <> "-"%char -> c <> "+"%char ->
  atoi (String c r) = wrap_int (atoi_digits (String c r) 0).
Proof.
  intros Hs Hm Hp. unfold atoi. simpl skip_spaces. rewrite Hs.
  destruct c as [[|] [|] [|] [|] [|] [|] [|] [|]]; try reflexivity; done.
Qed.

Lemma atoi_to_string_junk (n : Z) (rest : string) :
  INT_MIN <= n <= INT_MAX ->
  stops rest ->
  atoi (to_string n +:+ rest) = n.
Proof.
  intros Hn Hrest. unfold to_string.
  destruct n as [| p | p]; simpl Z.to_int; simpl NilZero.string_of_int.
  - destruct rest as [| c r]; [reflexivity |]. simpl in Hrest.
    unfold atoi. simpl. by rewrite Hrest.
  - destruct (uint_head_digit p rest) as (c & r & E & Hs & Hm & Hp).
    rewrite E, atoi_unsigned by done. rewrite <- E.
    rewrite atoi_digits_positive by done. by apply wrap_int_small.
  - unfold atoi. simpl.
    rewrite atoi_digits_positive by done. by apply wrap_int_small.
Qed.

Lemma atoi_to_string (n : Z) :
  INT_MIN <= n <= INT_MAX -> atoi (to_string n) = n.
Proof.
  intros Hn.
  transitivity (atoi (to_string n +:+ ""));
    [| by apply atoi_to_string_junk].
  f_equal. generalize (to_string n). intros s.
  induction s as [| c s IH]; [reflexivity |].
  change (String c s = String c (s +:+ "")). by rewrite <- IH.
Qed.

Lemma parse_int_to_string (n : Z) : parse_int (to_string n) = Some n.
Proof.
  unfold parse_int, to_string. rewrite NilZero.isi.
  - simpl. by rewrite DecimalZ.of_to.
  - destruct n; simpl; try discriminate.
    intros [= H]. by apply DecimalPos.Unsigned.to_uint_nonnil in H.
  - destruct n; simpl; try discriminate.
    intros [= H]. by apply DecimalPos.Unsigned.to_uint_nonnil in H.
Qed.

Lemma to_string_inj (a b : Z) : to_string a = to_string b -> a = b.
Proof.
  intros H. apply (f_equal parse_int) in H.
  rewrite !parse_int_to_string in H. congruence.
Qed.

Lemma moduleName_not_interface (num : Z) : moduleName num <> "interface:spi-0".
Proof. unfold moduleName. simpl. discriminate. Qed.

(** X7. Two modules never share a section, and no module's section is the
    section that holds the module count: [moduleName] is one-to-one on the
    indices an [int] can hold, and never yields ["interface:spi-0"]. *)
Theorem moduleName_injective (i j : Z) :
  INT_MIN <= i < INT_MAX ->
  INT_MIN <= j < INT_MAX ->
  (moduleName i = moduleName j -> i = j) /\
  moduleName i <> "interface:spi-0".
Proof.
  intros Hi Hj. split; [| apply moduleName_not_interface].
  unfold moduleName. simpl. intros [= H].
  apply to_string_inj in H.
  rewrite !wrap_int_small in H by (unfold INT_MIN, INT_MAX in *; lia). lia.
Qed.

(** X8. The module number typed on the command line is the number in the
    section name: when [argv[2]] is the decimal text of [k], the command
    addresses index [k-1] and its section is ["display:"] followed by
    [argv[2]] itself. *)
Theorem typed_number_names_section (argv : list string) (k : Z) :
  1 <= k <= INT_MAX ->
  arg argv 2 = to_string k ->
  module_arg argv = k - 1 /\
  moduleName (module_arg argv) = "display:" +:+ arg argv 2.
Proof.
  intros Hk Ha.
  assert (Hm : module_arg argv = k - 1).
  { unfold module_arg. rewrite Ha, atoi_to_string
      by (unfold INT_MIN, INT_MAX in *; lia).
    apply wrap_int_small. unfold INT_MIN, INT_MAX in *. lia. }
  split; [done |]. rewrite Hm, Ha. unfold moduleName.
  rewrite wrap_int_small by (unfold INT_MIN, INT_MAX in *; lia).
  by replace (k - 1 + 1) with k by lia.
Qed.

(** X9. The numbers of a command are read leniently: whatever follows the
    digits of the module number and of the value is ignored, so [set]
    with a module argument ["<k><junk>"] and a value argument
    ["<v><junk>"] asks for value [v] on index [k-1]. *)
Theorem numbers_read_leniently
        (argv : list string) (k v : Z) (junk2 junk3 : string) :
  argc argv = 4 ->
  arg argv 1 = cmdSet ->
  arg argv 2 = to_string k +:+ junk2 ->
  arg argv 3 = to_string v +:+ junk3 ->
  stops junk2 -> stops junk3 ->
  INT_MIN < k <= INT_MAX ->
  INT_MIN <= v <= INT_MAX ->
  requested argv = Some (k - 1, SetTo v).
Proof.
  intros Hc H1 H2 H3 Hs2 Hs3 Hk Hv.
  unfold requested, module_arg. rewrite Hc, H1, H2, H3. simpl.
  rewrite !atoi_to_string_junk by (done || lia).
  rewrite wrap_int_small by (unfold INT_MIN, INT_MAX in *; lia).
  reflexivity.
Qed.

Lemma atoi_not_a_number (c : ascii) (r : string) :
  is_space c = false -> c <> "-"%char -> c <> "+"%char ->
  digit_of c = None ->
  atoi (String c r) = 0.
Proof.
  intros Hs Hm Hp Hd. rewrite atoi_unsigned by done. simpl. by rewrite Hd.
Qed.

(** X10. A module argument that reads as zero or less -- the text ["0"], a
    negative number, or text that does not begin with a number, which [atoi]
    reads as 0 -- is refused on every device, whatever its size: the command
    reports the index [atoi(argv[2])-1] and returns -1. *)
Theorem nonpositive_module_refused
        (prog : string) (argv : list string) (w : World)
        (num : Z) (mu : Mutation) :
  requested argv = Some (num, mu) ->
  INT_MIN < atoi (arg argv 2) <= 0 ->
  command prog argv w
  = (Return (-1),
     logged (EvCerr (InvalidModuleNumber (atoi (arg argv 2) - 1))) w) /\
  (forall c r, arg argv 2 = String c r ->
               is_space c = false -> c <> "-"%char -> c <> "+"%char ->
               digit_of c = None -> atoi (arg argv 2) = 0).
Proof.
  intros Hreq Ha.
  assert (Hnum : num = atoi (arg argv 2) - 1).
  { unfold requested, module_arg in Hreq.
    repeat match type of Hreq with
           | (if ?b then _ else _) = _ => destruct b
           end; try discriminate; injection Hreq as <- _;
      apply wrap_int_small; unfold INT_MIN, INT_MAX in *; lia. }
  split.
  - rewrite <- Hnum.
    apply (command_rejected _ _ _ _ _ _ Hreq).
    apply rejection_index; [by eapply requested_range |].
    unfold numDevices. lia.
  - intros c r -> Hs Hm Hp Hd. by apply atoi_not_a_number.
Qed.


(** *** What a mutation leaves alone (lines 118-123) *)

Lemma clean_lookup (ms : list DisplayModule) (k : nat) :
  Forall (fun m => dirty m = false) ms ->
  (set_dirty false <$> ms) !! k = ms !! k.
Proof.
  intros Hc. rewrite list_lookup_fmap.
  destruct (ms !! k) as [m |] eqn:E; [| done]. simpl. f_equal.
  rewrite Forall_forall in Hc.
  assert (Hd : dirty m = false)
    by (apply Hc; eapply list_elem_of_lookup_2; eauto).
  destruct m. simpl in *. by subst.
Qed.

(** X11. A successful [set], [clear] or [brightness] changes the addressed
    module and its section only: every other module of the device and
    every other section of the state file, the module count among them, is
    after the run what it was before. *)
Theorem mutation_touches_one_module
        (fuel : nat) (file : gmap string (gmap string string))
        (argv : list string) (w1 : World) (num : Z) (mu : Mutation) :
  startup fuel (is_verbose argv) (initial file) = (Ok tt, w1) ->
  requested (shift argv) = Some (num, mu) ->
  0 <= num < numDevices (max w1) ->
  (forall level, mu = Brightness level -> 0 <= level <= 15) ->
  (forall k, k <> Z.to_nat num ->
             modules (max (snd (run fuel file argv))) !! k
             = modules (max w1) !! k) /\
  (forall name, name <> moduleName num ->
                disk (snd (run fuel file argv)) !! name = file !! name) /\
  configured_count (disk (snd (run fuel file argv))) = configured_count file.
Proof.
  intros Hs Hreq Hn Hl.
  pose proof (requested_range _ _ _ Hreq) as Hr.
  pose proof (rejection_passes _ _ _ Hr Hn Hl) as Hrej.
  destruct (rejection_none _ _ _ Hr Hrej) as [Hv _].
  destruct (valid_index_lookup _ _ Hv) as (_ & m & Hm).
  destruct (startup_facts _ _ _ _ _ Hs) as (_ & _ & _ & _ & Hok).
  destruct (Hok eq_refl) as (Hcfg & Him & _ & Hclean). simpl in Hcfg.
  rewrite (run_after_startup _ _ _ _ Hs).
  rewrite (command_applied _ _ _ _ _ _ Hreq Hrej Him Hm).
  rewrite flush_run by done.
  assert (Hdisk : forall name, name <> moduleName num ->
                    disk (saved (moduleName num) num mu m w1) !! name
                    = file !! name).
  { intros name Hne. simpl. rewrite Hcfg. simpl.
    by rewrite lookup_insert_ne. }
  split_and!.
  - intros k Hk. destruct (busAccepts _); simpl.
    + rewrite list_lookup_fmap, list_lookup_insert_ne by done.
      rewrite <- list_lookup_fmap. by apply clean_lookup.
    + by rewrite list_lookup_insert_ne.
  - intros name Hne. destruct (busAccepts _); by apply Hdisk.
  - unfold configured_count.
    assert (Hi : disk (saved (moduleName num) num mu m w1) !! "interface:spi-0"
                 = file !! "interface:spi-0").
    { apply Hdisk. intros E. by apply (moduleName_not_interface num). }
    destruct (busAccepts _); simpl disk in *; by rewrite Hi.
Qed.

(** *** Start-up writes nothing (lines 85-94) *)

(** X12. Start-up never writes to the bus and never writes the state file,
    whichever way it ends and whatever write mode the device starts in:
    immediate writes are switched off (line 85) before the first load. *)
Theorem startup_writes_nothing
        (fuel : nat) (v : bool) (file : gmap string (gmap string string)) :
  disk (snd (startup fuel v (initial file))) = file /\
  bus (snd (startup fuel v (initial file))) = [] /\
  (forall c, fst (startup fuel v (initial file)) <> Return c) /\
  (fst (startup fuel v (initial file)) = Ok tt ->
   immediateWrite (max (snd (startup fuel v (initial file)))) = false).
Proof.
  destruct (startup fuel v (initial file)) as [r w1] eqn:Hs.
  destruct (startup_facts _ _ _ _ _ Hs)
    as (Hd & Hb & (calls & loads & fin & _ & _ & _ & Hfin) & _ & Hok).
  simpl. split_and!; auto.
  - intros c ->. done.
  - intros ->. by destruct (Hok eq_refl) as (_ & Him & _).
Qed.

(** *** The 8-bit loop counter (line 88) *)

Lemma load_loop_too_many (fuel : nat) :
  forall (i : Z) (w : World),
    immediateWrite (max w) = false ->
    0 <= i < 256 ->
    256 <= numDevices (max w) ->
    fst (load_loop fuel i w) <> Ok tt.
Proof.
  induction fuel as [| fuel IH]; intros i w Him Hi Hn; [done |].
  simpl load_loop. rewrite bind_run. simpl.
  destruct (Z.ltb_spec i (numDevices (max w))) as [_ | Hge]; [| lia].
  rewrite bind_run.
  pose proof (loading_load_body i w Him) as (I1 & _ & L1 & _).
  destruct (load_body i w) as [[[] | c | e |] w1]; simpl in *; try done.
  apply IH; try done.
  - unfold wrap_uint8. apply Z.mod_pos_bound. lia.
  - unfold numDevices in *. by rewrite L1.
Qed.

Lemma load_loop_no_sections (fuel : nat) :
  forall (i : Z) (w : World),
    0 <= i < 256 ->
    256 <= numDevices (max w) ->
    (forall j, sections (config w) !! moduleName j = None) ->
    load_loop fuel i w = (Diverge, w).
Proof.
  induction fuel as [| fuel IH]; intros i w Hi Hn He; [done |].
  simpl load_loop. rewrite bind_run. simpl.
  destruct (Z.ltb_spec i (numDevices (max w))) as [_ | Hge]; [| lia].
  rewrite bind_run, load_body_missing by done.
  apply IH; try done.
  unfold wrap_uint8. apply Z.mod_pos_bound. lia.
Qed.

Lemma startup_failed_no_clean (fuel : nat) (v : bool)
      (file : gmap string (gmap string string)) (r : Res unit) (w1 : World) :
  startup fuel v (initial file) = (r, w1) ->
  r <> Ok tt ->
  EvSetClean ∉ trace w1.
Proof.
  intros Hs Hr.
  destruct (startup_facts _ _ _ _ _ Hs)
    as (_ & _ & (calls & loads & fin & Et & Fc & Fl & Hfin) & _).
  change (trace (initial file)) with (@nil Event) in Et.
  rewrite app_nil_l in Et.
  assert (fin = []) as -> by (destruct r as [[] | | |]; done).
  rewrite Et, !elem_of_app.
  intros [Hin | [Hin | [Hin | Hin]]].
  - unfold setup_calls in Hin.
    repeat (apply elem_of_cons in Hin as [Hin | Hin]; [discriminate Hin |]).
    by apply elem_of_nil in Hin.
  - rewrite Forall_forall in Fc. by specialize (Fc _ Hin).
  - rewrite Forall_forall in Fl. by destruct (Fl _ Hin) as (j & _ & ? & _).
  - by apply elem_of_nil in Hin.
Qed.

(** X13. When the store configures 256 modules or more, the 8-bit counter
    of the load loop wraps before it reaches the count: the run never gets
    to [setClean], the command or the flush, however long it is given; it
    loops for ever, unless a load throws first.  With no module section in
    the file it loops for ever. *)
Theorem counter_wraps_before_count
        (fuel : nat) (file : gmap string (gmap string string))
        (argv : list string) (count : Z) :
  configured_count file = Some count ->
  256 <= count ->
  (fst (run fuel file argv) = Diverge \/
   exists e, fst (run fuel file argv) = Throw e) /\
  (EvSetClean ∉ trace (snd (run fuel file argv))) /\
  (EvSendData ∉ trace (snd (run fuel file argv))) /\
  bus (snd (run fuel file argv)) = [] /\
  ((forall j, file !! moduleName j = None) ->
   fst (run fuel file argv) = Diverge).
Proof.
  intros Hc Hn. unfold run. rewrite main_run.
  destruct (startup fuel (is_verbose argv) (initial file)) as [r w1] eqn:Hs.
  destruct (startup_facts _ _ _ _ _ Hs) as (_ & Hb & _).
  pose proof (startup_trace_no_command _ _ _ _ _ EvSendData Hs
                (or_intror eq_refl)) as Hnoflush.
  pose proof (startup_failed_no_clean _ _ _ _ _ Hs) as Hnoclean.
  rewrite startup_run, prelude_run in Hs. simpl disk in Hs.
  rewrite Hc in Hs. destruct (Z.ltb_spec count 0) as [| _]; [lia |].
  set (w0 := configured (is_verbose argv) (Z.to_nat count)
               [EvNumDevices count; EvWriteImmediately false] (initial file))
    in Hs.
  assert (Hnum : 256 <= numDevices (max w0)).
  { unfold numDevices. simpl. rewrite length_replicate. lia. }
  pose proof (load_loop_too_many fuel 0 w0 eq_refl ltac:(lia) Hnum) as Hne.
  assert (Hr : r <> Ok tt).
  { intros ->. destruct (load_loop fuel 0 w0) as [[[] | c | e |] w2];
      simpl in *; try done. }
  specialize (Hnoclean Hr).
  assert (Hdiv : (forall j, file !! moduleName j = None) -> r = Diverge).
  { intros Hnone.
    rewrite (load_loop_no_sections fuel 0 w0) in Hs by (done || lia).
    simpl in Hs. by injection Hs as <- _. }
  destruct r as [[] | c | e |]; try done; simpl.
  - exfalso. pose proof (load_loop_no_return fuel 0 w0 c) as Hnr.
    destruct (load_loop fuel 0 w0) as [[[] | c2 | e2 |] w2]; simpl in *;
      congruence.
  - split_and!; eauto.
  - split_and!; eauto.
Qed.


(** *** The loads of the loop, exactly (lines 88-94) *)

Lemma load_body_trace (i : Z) (w : World) :
  trace (snd (load_body i w))
  = trace w ++
    (if bool_decide (is_Some (sections (config w) !! moduleName i))
     then [EvLoadState (moduleName i) i] else []).
Proof.
  destruct (sections (config w) !! moduleName i) as [sec |] eqn:E.
  - rewrite bool_decide_eq_true_2 by eauto.
    unfold load_body, config_has, call. rewrite !bind_run. simpl.
    rewrite E, bool_decide_eq_true_2 by eauto.
    rewrite !bind_run. simpl. rewrite bind_run. simpl.
    match goal with
    | |- context [loadState ?s ?j ?w0] =>
        destruct (grows_loadState (fun _ => False) s j w0) as (t & Et & Ft);
        destruct (loadState s j w0) as [r w']
    end.
    simpl in Et.
    assert (t = []) as -> by (destruct t; [done | by inversion Ft]).
    rewrite app_nil_r in Et. by destruct r.
  - rewrite load_body_missing, bool_decide_eq_false_2 by (by intros [? ?] || done).
    simpl. by rewrite app_nil_r.
Qed.

Lemma load_loop_loads (fuel : nat) :
  forall (i : Z) (w w' : World),
    immediateWrite (max w) = false ->
    0 <= i < 256 ->
    load_loop fuel i w = (Ok tt, w') ->
    numDevices (max w) <= 255 /\
    trace w'
    = trace w ++
      ((fun j => EvLoadState (moduleName j) j)
         <$> filter (fun j => is_Some (sections (config w) !! moduleName j))
                    (seqZ i (numDevices (max w) - i))).
Proof.
  induction fuel as [| fuel IH]; intros i w w' Him Hi Hrun; [done |].
  assert (Hn : numDevices (max w) <= 255).
  { destruct (Z.le_gt_cases (numDevices (max w)) 255) as [| Hgt]; [done |].
    pose proof (load_loop_too_many (S fuel) i w Him Hi ltac:(lia)) as Hne.
    by rewrite Hrun in Hne. }
  split; [done |].
  simpl load_loop in Hrun. rewrite bind_run in Hrun. simpl in Hrun.
  destruct (Z.ltb_spec i (numDevices (max w))) as [Hlt | Hge].
  - rewrite bind_run in Hrun.
    pose proof (load_body_trace i w) as Ht.
    pose proof (loading_load_body i w Him) as (I1 & _ & L1 & _ & C1 & _).
    destruct (load_body i w) as [[[] | c | e |] w1]; simpl in *; try done.
    assert (wrap_uint8 (i + 1) = i + 1) as Hw
        by (unfold wrap_uint8; rewrite Z.mod_small; lia).
    rewrite Hw in Hrun.
    destruct (IH (i + 1) w1 w' I1 ltac:(lia) Hrun) as [_ Et].
    assert (Hnum : numDevices (max w1) = numDevices (max w))
      by (unfold numDevices; by rewrite L1).
    rewrite Et, Ht, Hnum, C1, <- app_assoc. f_equal.
    rewrite (seqZ_cons i) by lia. rewrite filter_cons.
    replace (Z.pred (numDevices (max w) - i))
      with (numDevices (max w) - (i + 1)) by lia.
    change (Z.succ i) with (i + 1).
    destruct (decide (is_Some (sections (config w) !! moduleName i)))
      as [Hs | Hs].
    + by rewrite bool_decide_eq_true_2.
    + by rewrite bool_decide_eq_false_2.
  - injection Hrun as <-.
    rewrite seqZ_nil by lia. simpl. by rewrite app_nil_r.
Qed.

(** X14. A start-up that completes has loaded exactly the modules that
    have a section in the state file: one load for each such index below
    the module count, in increasing index order, each under its own section
    name, and then [setClean]; and the module count is at most 255. *)
Theorem loads_follow_the_sections
        (fuel : nat) (v : bool) (file : gmap string (gmap string string))
        (w1 : World) :
  startup fuel v (initial file) = (Ok tt, w1) ->
  numDevices (max w1) <= 255 /\
  exists calls,
    Forall (fun e => is_setup e = true) calls /\
    trace w1
    = setup_calls v ++ calls ++
      expected_loads file (numDevices (max w1)) ++ [EvSetClean].
Proof.
  rewrite startup_run, prelude_run. simpl disk.
  assert (Hgen : forall n calls,
             Forall (fun e => is_setup e = true) calls ->
             match load_loop fuel 0 (configured v n calls (initial file)) with
             | (Ok _, w2) => (Ok tt, cleaned w2)
             | (Return c, w2) => (Return c, w2)
             | (Throw e, w2) => (Throw e, w2)
             | (Diverge, w2) => (Diverge, w2)
             end = (Ok tt, w1) ->
             numDevices (max w1) <= 255 /\
             exists calls,
               Forall (fun e => is_setup e = true) calls /\
               trace w1
               = setup_calls v ++ calls ++
                 expected_loads file (numDevices (max w1)) ++ [EvSetClean]).
  { intros n calls Hc Hrun.
    destruct (load_loop fuel 0 (configured v n calls (initial file)))
      as [r2 w2] eqn:El.
    destruct r2 as [[] | c | e |]; try done. injection Hrun as <-.
    pose proof (load_loop_loading fuel 0 (configured v n calls (initial file))
                                  ltac:(lia) eq_refl) as Hl.
    rewrite El in Hl. destruct Hl as (_ & _ & L2 & _). simpl in L2.
    destruct (load_loop_loads fuel 0 (configured v n calls (initial file)) w2
                              eq_refl ltac:(lia) El) as [Hn Et].
    assert (Hnum : numDevices (max (cleaned w2))
                   = numDevices (max (configured v n calls (initial file)))).
    { unfold numDevices. simpl. by rewrite length_fmap, L2. }
    simpl in Et.
    rewrite Hnum. split; [done |].
    exists calls. split; [done |]. simpl trace. rewrite Et.
    unfold expected_loads. simpl.
    rewrite Z.sub_0_r, <- !app_assoc. reflexivity. }
  destruct (configured_count file) as [count |].
  - destruct (count <? 0); [done |]. intros Hrun.
    eapply Hgen; [| exact Hrun]. by repeat constructor.
  - intros Hrun. eapply Hgen; [| exact Hrun]. by repeat constructor.
Qed.


(** *** The verbose option (lines 56-62) *)

























(** *** From one run to the next (lines 89-93 after lines 118-123) *)

Lemma startup_numDevices (fuel : nat) (v : bool)
      (file : gmap string (gmap string string)) (w1 : World) :
  startup fuel v (initial file) = (Ok tt, w1) ->
  numDevices (max w1) = Z.of_nat (Z.to_nat (module_count file)).
Proof.
  rewrite startup_run, prelude_run. simpl disk. unfold module_count.
  assert (Hgen : forall n calls,
             match load_loop fuel 0 (configured v n calls (initial file)) with
             | (Ok _, w2) => (Ok tt, cleaned w2)
             | (Return c, w2) => (Return c, w2)
             | (Throw e, w2) => (Throw e, w2)
             | (Diverge, w2) => (Diverge, w2)
             end = (Ok tt, w1) ->
             numDevices (max w1) = Z.of_nat n).
  { intros n calls Hrun.
    pose proof (load_loop_loading fuel 0 (configured v n calls (initial file))
                                  ltac:(lia) eq_refl) as Hl.
    destruct (load_loop fuel 0 (configured v n calls (initial file)))
      as [[[] | c | e |] w2]; try done.
    injection Hrun as <-. destruct Hl as (_ & _ & L2 & _). simpl in L2.
    unfold numDevices. simpl.
    by rewrite length_fmap, L2, length_replicate. }
  destruct (configured_count file) as [count |]; simpl.
  - destruct (count <? 0); [done |]. apply Hgen.
  - apply Hgen.
Qed.

(** Past index [k] the loop leaves module [k] alone. *)
Lemma load_loop_keeps_below (fuel : nat) :
  forall (i : Z) (w w' : World) (k : nat),
    immediateWrite (max w) = false ->
    Z.of_nat k < i < 256 ->
    load_loop fuel i w = (Ok tt, w') ->
    modules (max w') !! k = modules (max w) !! k.
Proof.
  induction fuel as [| fuel IH]; intros i w w' k Him Hi Hrun; [done |].
  destruct (load_loop_loads (S fuel) i w w' Him ltac:(lia) Hrun) as [Hn _].
  simpl load_loop in Hrun. rewrite bind_run in Hrun. simpl in Hrun.
  destruct (Z.ltb_spec i (numDevices (max w))) as [Hlt | Hge];
    [| by injection Hrun as <-].
  rewrite bind_run in Hrun.
  pose proof (loading_load_body i w Him) as (I1 & _ & _ & _ & _ & _ & K1).
  destruct (load_body i w) as [[[] | c | e |] w1]; simpl in *; try done.
  assert (wrap_uint8 (i + 1) = i + 1) as Hw
      by (unfold wrap_uint8; rewrite Z.mod_small; lia).
  rewrite Hw in Hrun.
  rewrite (IH (i + 1) w1 w' k I1 ltac:(lia) Hrun).
  apply K1. lia.
Qed.

(** The loop's effect on a module that has a section is that of its one
    load. *)
Lemma load_loop_module (fuel : nat) :
  forall (i : Z) (w w' : World) (k : nat) (sec : gmap string string)
         (m : DisplayModule),
    immediateWrite (max w) = false ->
    0 <= i <= Z.of_nat k ->
    i < 256 ->
    Z.of_nat k < numDevices (max w) ->
    sections (config w) !! moduleName (Z.of_nat k) = Some sec ->
    modules (max w) !! k = Some m ->
    load_loop fuel i w = (Ok tt, w') ->
    exists wa wb,
      immediateWrite (max wa) = false /\
      modules (max wa) !! k = Some m /\
      loadState sec (Z.of_nat k) wa = (Ok tt, wb) /\
      modules (max w') !! k = modules (max wb) !! k.
Proof.
  induction fuel as [| fuel IH];
    intros i w w' k sec m Him Hi Hi' Hk Hsec Hm Hrun; [done |].
  destruct (load_loop_loads (S fuel) i w w' Him ltac:(lia) Hrun) as [Hn _].
  simpl load_loop in Hrun. rewrite bind_run in Hrun. simpl in Hrun.
  destruct (Z.ltb_spec i (numDevices (max w))) as [Hlt | Hge]; [| lia].
  rewrite bind_run in Hrun.
  assert (wrap_uint8 (i + 1) = i + 1) as Hw
      by (unfold wrap_uint8; rewrite Z.mod_small; lia).
  rewrite Hw in Hrun.
  destruct (decide (i = Z.of_nat k)) as [-> | Hne].
  - unfold load_body, config_has, call in Hrun.
    rewrite !bind_run in Hrun. simpl in Hrun.
    rewrite Hsec, bool_decide_eq_true_2 in Hrun by eauto.
    rewrite !bind_run in Hrun. simpl in Hrun.
    rewrite bind_run in Hrun. simpl in Hrun.
    unfold section_of in Hrun. rewrite Hsec in Hrun. simpl in Hrun.
    set (wa := mkWorld (disk w) (config w) (max w) (bus w)
                 (trace w ++ [EvLoadState (moduleName (Z.of_nat k))
                                          (Z.of_nat k)])) in *.
    pose proof (loading_loadState sec (Z.of_nat k) wa Him)
      as (Ib & _ & _).
    destruct (loadState sec (Z.of_nat k) wa) as [[[] | c | e |] wb] eqn:El;
      simpl in *; try done.
    exists wa, wb. split_and!; try done.
    eapply load_loop_keeps_below; [exact Ib | | exact Hrun]. lia.
  - pose proof (loading_load_body i w Him)
      as (I1 & _ & L1 & _ & C1 & _ & K1).
    destruct (load_body i w) as [[[] | c | e |] w1]; simpl in *; try done.
    apply (IH (i + 1) w1 w' k sec m I1);
      [lia | lia | unfold numDevices in *; by rewrite L1 | by rewrite C1
       | rewrite K1; [done | lia] | exact Hrun].
Qed.

Lemma valid_index_length (c c' : Chain) (k : Z) :
  length (modules c') = length (modules c) ->
  valid_index c' k = valid_index c k.
Proof. intros H. unfold valid_index, numDevices. by rewrite H. Qed.

(** A load from the section a [set] has saved. *)
Lemma loadState_saved (w w' : World) (k : Z) (d m : DisplayModule) (v : Z)
      (old : gmap string string) :
  immediateWrite (max w) = false ->
  valid_index (max w) k = true ->
  modules (max w) !! Z.to_nat k = Some d ->
  loadState (save_module (module_setValue v m) old) k w = (Ok tt, w') ->
  exists m', modules (max w') !! Z.to_nat k = Some m' /\
             value m' = Some v /\ hasValue m' = true /\
             brightness m' = brightness m /\ powered m' = powered m.
Proof.
  intros Him Hv Hd.
  set (sec := save_module (module_setValue v m) old).
  assert (H1 : sec !! keyValue = Some (to_string v)).
  { unfold sec, save_module. simpl value.
    do 3 (rewrite lookup_insert_ne by done). by rewrite lookup_insert_eq. }
  assert (H2 : sec !! keyHasValue
               = Some (bool_text (hasValue (module_setValue v m)))).
  { unfold sec, save_module.
    do 2 (rewrite lookup_insert_ne by done). by rewrite lookup_insert_eq. }
  assert (H3 : sec !! keyBrightness
               = Some (to_string (brightness (module_setValue v m)))).
  { unfold sec, save_module.
    rewrite lookup_insert_ne by done. by rewrite lookup_insert_eq. }
  assert (H4 : sec !! keyPowered
               = Some (bool_text (powered (module_setValue v m)))).
  { unfold sec, save_module. by rewrite lookup_insert_eq. }
  clearbody sec.
  unfold loadState, read_key. rewrite H1, H2, H3, H4.
  rewrite !parse_int_to_string.
  assert (Hh : parse_int (bool_text (hasValue (module_setValue v m)))
               = Some 1) by reflexivity.
  rewrite Hh.
  assert (Hp : exists z, parse_int (bool_text (powered (module_setValue v m)))
                         = Some z /\ negb (z =? 0) = powered m).
  { simpl. destruct (powered m); [by exists 1 | by exists 0]. }
  destruct Hp as (z & -> & Hz).
  unfold when_present, setNumber.
  cbv [mbind M_bind mret M_ret]. change (1 =? 0) with false. cbv iota.
  rewrite (mutate_run _ _ _ d) by done.
  set (w2 := mkWorld _ _ _ _ _).
  assert (Hv2 : valid_index (max w2) k = true)
    by (rewrite <- Hv; apply valid_index_length; unfold w2; simpl;
        by rewrite length_insert).
  assert (Hlen : (Z.to_nat k < length (modules (max w)))%nat)
    by (apply lookup_lt_is_Some_1; eauto).
  assert (Hd2 : modules (max w2) !! Z.to_nat k = Some (module_setValue v d))
    by (unfold w2; simpl; by apply list_lookup_insert_eq).
  unfold setBrightness. cbv [mbind M_bind get_max throw]. rewrite Hv2.
  destruct ((0 <=? brightness (module_setValue v m))
            && (brightness (module_setValue v m) <=? 15)); [| done].
  rewrite (mutate_run _ _ _ (module_setValue v d)) by done.
  unfold setPower.
  set (w3 := mkWorld _ _ _ _ _).
  assert (Hv3 : valid_index (max w3) k = true)
    by (rewrite <- Hv; apply valid_index_length; unfold w3, w2; simpl;
        by rewrite !length_insert).
  assert (Hd3 : modules (max w3) !! Z.to_nat k
                = Some (module_setBrightness
                          (brightness (module_setValue v m))
                          (module_setValue v d))).
  { unfold w3. simpl. apply list_lookup_insert_eq.
    unfold w2. simpl. by rewrite length_insert. }
  rewrite (mutate_run w3 _ _ _ Him Hv3 Hd3).
  intros [= <-]. simpl.
  eexists. split.
  - apply list_lookup_insert_eq. unfold w3, w2. simpl.
    by rewrite !length_insert.
  - simpl. by split_and!.
Qed.

(** X16. What [set] has saved, the next run loads back: if the next
    start-up on the state file the run left completes, the module the
    command addressed holds the value that was set, with the brightness
    and power it had, and is clean. *)
Theorem set_value_is_loaded_next_run
        (fuel : nat) (file : gmap string (gmap string string))
        (argv : list string) (w1 : World) (num v : Z) (m : DisplayModule)
        (fuel' : nat) (verbose' : bool) (w1' : World) :
  startup fuel (is_verbose argv) (initial file) = (Ok tt, w1) ->
  requested (shift argv) = Some (num, SetTo v) ->
  0 <= num < numDevices (max w1) ->
  modules (max w1) !! Z.to_nat num = Some m ->
  startup fuel' verbose' (initial (disk (snd (run fuel file argv))))
  = (Ok tt, w1') ->
  modules (max w1') !! Z.to_nat num
  = Some (mkModule (Some v) true (brightness m) (powered m) false).
Proof.
  intros Hs Hreq Hn Hm Hs'.
  pose proof (requested_range _ _ _ Hreq) as Hr.
  assert (Hl : forall level, SetTo v = Brightness level -> 0 <= level <= 15)
    by (intros level [=]).
  pose proof (rejection_passes _ _ _ Hr Hn Hl) as Hrej.
  destruct (startup_facts _ _ _ _ _ Hs) as (_ & _ & _ & _ & Hok).
  destruct (Hok eq_refl) as (Hcfg & Him & _ & _). simpl in Hcfg.
  pose proof (startup_numDevices _ _ _ _ Hs) as Hnum.
  set (sec := save_module (module_setValue v m)
                          (default ∅ (file !! moduleName num))).
  assert (Hdisk : disk (snd (run fuel file argv))
                  = <[moduleName num := sec]> file).
  { rewrite (run_after_startup _ _ _ _ Hs).
    rewrite (command_applied _ _ _ _ _ _ Hreq Hrej Him Hm).
    rewrite flush_run by done.
    destruct (busAccepts _); simpl; unfold section_of; by rewrite Hcfg. }
  rewrite Hdisk in Hs'. clear Hdisk.
  set (file' := <[moduleName num := sec]> file) in *.
  assert (Hcount : module_count file' = module_count file).
  { unfold module_count, configured_count, file'.
    by rewrite lookup_insert_ne
      by (intros E; by apply (moduleName_not_interface num)). }
  pose proof (startup_numDevices _ _ _ _ Hs') as Hnum'.
  rewrite Hcount in Hnum'.
  rewrite startup_run, prelude_run in Hs'. simpl disk in Hs'.
  assert (Hgen : forall n calls,
             Z.of_nat n = numDevices (max w1) ->
             match load_loop fuel' 0
                     (configured verbose' n calls (initial file')) with
             | (Ok _, w2) => (Ok tt, cleaned w2)
             | (Return c, w2) => (Return c, w2)
             | (Throw e, w2) => (Throw e, w2)
             | (Diverge, w2) => (Diverge, w2)
             end = (Ok tt, w1') ->
             modules (max w1') !! Z.to_nat num
             = Some (mkModule (Some v) true (brightness m) (powered m) false)).
  { intros n calls Hlen Hrun.
    destruct (load_loop fuel' 0 (configured verbose' n calls (initial file')))
      as [r2 w2] eqn:El.
    destruct r2 as [[] | c | e |]; try done. injection Hrun as <-.
    destruct (load_loop_module fuel' 0
                (configured verbose' n calls (initial file')) w2
                (Z.to_nat num) sec defaultModule
                eq_refl ltac:(lia) ltac:(lia)
                ltac:(unfold numDevices; simpl;
                      rewrite length_replicate; lia)
                ltac:(simpl; rewrite Z2Nat.id by lia;
                      unfold file'; apply lookup_insert_eq)
                ltac:(simpl; apply lookup_replicate_2; lia) El)
      as (wa & wb & Ia & Ma & Hload & Hmod).
    rewrite Z2Nat.id in Hload by lia.
    assert (Hva : valid_index (max wa) num = true).
    { unfold valid_index, numDevices.
      assert ((Z.to_nat num < length (modules (max wa)))%nat)
        by (apply lookup_lt_is_Some_1; eauto).
      destruct (Z.leb_spec 0 num), (Z.ltb_spec num (Z.of_nat (length (modules (max wa)))));
        simpl; lia || done. }
    destruct (loadState_saved _ _ _ _ _ _ _ Ia Hva Ma Hload)
      as (m' & Hm' & Hval & Hhas & Hbr & Hpw).
    simpl. rewrite list_lookup_fmap, Hmod, Hm'. simpl. f_equal.
    unfold set_dirty. by rewrite Hval, Hhas, Hbr, Hpw. }
  unfold module_count in Hnum, Hnum'.
  assert (Hcc : configured_count file' = configured_count file).
  { unfold configured_count, file'.
    by rewrite lookup_insert_ne
      by (intros E; by apply (moduleName_not_interface num)). }
  rewrite Hcc in Hs'.
  destruct (configured_count file) as [count |]; simpl in *.
  - destruct (count <? 0); [done |]. eapply Hgen; [| exact Hs']. lia.
  - eapply Hgen; [| exact Hs']. lia.
Qed.

End Driver.

(** ** The claims on a concrete installation *)

Import Installation.

(** The calls of [prog set 1 42], in order. *)
Example trace_of_set :
  trace (snd (run 8 false noReset accept fuel file ["prog"; "set"; "1"; "42"]))
  = [EvCfgVerbose false; EvCfgLoad; EvAddSPI "spi0_0"; EvSpiVerbose false;
     EvSpiBaudRate 500000; EvSpiDevice; EvNumDevices 2;
     EvWriteImmediately false; EvLoadState "display:2" 1; EvSetClean;
     EvSetNumber 0 42; EvSaveState "display:1" 0; EvMarkDirty; EvCfgSave;
     EvSendData].
Proof. vm_compute. reflexivity. Qed.

(** The bus after [prog set 1 42]: one write, a frame per module. *)
Example bus_of_set :
  bus (snd (run 8 false noReset accept fuel file ["prog"; "set"; "1"; "42"]))
  = [WriteAll [mkFrame (Some 42) 8 false; mkFrame (Some 7) 3 false]].
Proof. vm_compute. reflexivity. Qed.

(** The calls of [prog -v brightness 2 16]: the level is refused. *)
Example trace_of_bad_brightness :
  run 8 false noReset accept fuel file ["prog"; "-v"; "brightness"; "2"; "16"]
  = (Return (-1),
     logged (EvCerr (BrightnessOutOfRange 16))
            (snd (startup 8 false accept fuel true (initial false file)))).
Proof. vm_compute. reflexivity. Qed.

(** A store that configures 300 modules: the 8-bit counter wraps and the
    load loop runs out of any fuel. *)
Example too_many_modules :
  fst (run 8 false noReset accept 1000
           {[ "interface:spi-0" := {[ "modules" := "300" ]} ]} ["prog"])
  = Diverge.
Proof. vm_compute. reflexivity. Qed.

(** [atoi] and [moduleName] on a few inputs. *)
Example atoi_examples :
  atoi " -12x" = -12 /\ atoi "abc" = 0 /\ atoi "+7" = 7 /\
  moduleName 0 = "display:1" /\ moduleName 9 = "display:10".
Proof. vm_compute. by split_and!. Qed.

(** C1 as the specification words it fails on the run of [set 1 42]: the
    store is saved before the chain is flushed, not after. *)
Lemma mutation_run_order_counterexample :
  let argv := ["prog"; "set"; "1"; "42"] in
  let r := run 8 false noReset accept fuel file argv in
  requested (shift argv) = Some (0, SetTo 42) /\
  fst r = Ok tt /\
  spec_order (EvSetNumber 0 42) (trace (snd r)) = false /\
  before EvCfgSave EvSendData (trace (snd r)) = true.
Proof. vm_compute. by split_and!. Qed.

Lemma mutation_run_order_witness :
  fst (run 8 false noReset accept fuel file ["prog"; "set"; "1"; "42"])
  = Ok tt \/
  fst (run 8 false noReset accept fuel file ["prog"; "set"; "1"; "42"])
  = Throw TransportError.
Proof.
  pose (w1 := snd (startup 8 false accept fuel false (initial false file))).
  refine (proj2 (mutation_run_order 8 false noReset accept fuel file
                   ["prog"; "set"; "1"; "42"] w1 0 (SetTo 42) _ _ _ _)).
  - vm_compute. reflexivity.
  - vm_compute. reflexivity.
  - assert (E : numDevices (max w1) = 2) by (vm_compute; reflexivity).
    rewrite E. lia.
  - intros level H. discriminate H.
Defined.

Lemma invalid_index_rejected_witness :
  fst (run 8 false noReset accept fuel file ["prog"; "set"; "3"; "42"])
  = Return (-1).
Proof.
  pose (w1 := snd (startup 8 false accept fuel false (initial false file))).
  destruct (invalid_index_rejected 8 false noReset accept fuel file
              ["prog"; "set"; "3"; "42"] w1 2 (SetTo 42)) as [H _].
  - vm_compute. reflexivity.
  - vm_compute. reflexivity.
  - assert (E : numDevices (max w1) = 2) by (vm_compute; reflexivity).
    rewrite E. lia.
  - rewrite H. reflexivity.
Defined.

Lemma brightness_level_rejected_witness :
  fst (run 8 false noReset accept fuel file ["prog"; "brightness"; "2"; "16"])
  = Return (-1) /\
  fst (run 8 false noReset accept fuel file ["prog"; "brightness"; "2"; "-1"])
  = Return (-1).
Proof.
  pose (w1 := snd (startup 8 false accept fuel false (initial false file))).
  assert (E : numDevices (max w1) = 2) by (vm_compute; reflexivity).
  split.
  - destruct (brightness_level_rejected 8 false noReset accept fuel file
                ["prog"; "brightness"; "2"; "16"] w1 1 16) as [H _].
    + vm_compute. reflexivity.
    + vm_compute. reflexivity.
    + rewrite E. lia.
    + lia.
    + rewrite H. reflexivity.
  - destruct (brightness_level_rejected 8 false noReset accept fuel file
                ["prog"; "brightness"; "2"; "-1"] w1 1 (-1)) as [H _].
    + vm_compute. reflexivity.
    + vm_compute. reflexivity.
    + rewrite E. lia.
    + lia.
    + rewrite H. reflexivity.
Defined.

Lemma mutation_saved_before_store_save_witness :
  exists pre,
    trace (snd (run 8 false noReset accept fuel file
                    ["prog"; "-v"; "clear"; "2"]))
    = pre ++ [EvClear 1; EvSaveState "display:2" 1; EvMarkDirty; EvCfgSave;
              EvSendData].
Proof.
  pose (w1 := snd (startup 8 false accept fuel true (initial false file))).
  destruct (mutation_saved_before_store_save 8 false noReset accept fuel file
              ["prog"; "-v"; "clear"; "2"] w1 1 Cleared)
    as (m & sec & _ & _ & _ & _ & _ & _ & _ & _ & _ & pre & H).
  - vm_compute. reflexivity.
  - vm_compute. reflexivity.
  - assert (E : numDevices (max w1) = 2) by (vm_compute; reflexivity).
    rewrite E. lia.
  - intros level H. discriminate H.
  - exists pre. exact H.
Defined.

Lemma missing_section_skipped_witness :
  modules (max (snd (startup 8 false accept fuel false (initial false file))))
    !! 0%nat
  = Some (defaultModule 8).
Proof.
  pose (w1 := snd (startup 8 false accept fuel false (initial false file))).
  destruct (missing_section_skipped 8 false accept fuel false file
              (Ok tt) w1 0) as (_ & _ & H & _).
  - vm_compute. reflexivity.
  - assert (E : numDevices (max w1) = 2) by (vm_compute; reflexivity).
    rewrite E. lia.
  - vm_compute. reflexivity.
  - exact H.
Defined.

Lemma flush_exactly_once_witness :
  fst (run 8 false noReset accept fuel file ["prog"]) = Ok tt /\
  length (bus (snd (run 8 false noReset accept fuel file ["prog"]))) = 1%nat.
Proof.
  pose (w1 := snd (startup 8 false accept fuel false (initial false file))).
  destruct (flush_exactly_once 8 false noReset accept fuel file ["prog"] w1)
    as (w2 & _ & _ & _ & _ & _ & H).
  - vm_compute. reflexivity.
  - vm_compute. reflexivity.
  - unfold accept in *. destruct H as [H1 H2]. rewrite H1, H2. by split.
Defined.

Lemma validation_failure_changes_nothing_witness :
  disk (snd (run 8 false noReset accept fuel file ["prog"; "clear"; "0"]))
  = file /\
  bus (snd (run 8 false noReset accept fuel file ["prog"; "clear"; "0"])) = [].
Proof.
  pose (w1 := snd (startup 8 false accept fuel false (initial false file))).
  destruct (validation_failure_changes_nothing 8 false noReset accept fuel
              file ["prog"; "clear"; "0"] w1 (-1) Cleared)
    as (_ & _ & _ & H1 & H2).
  - vm_compute. reflexivity.
  - vm_compute. reflexivity.
  - left. assert (E : numDevices (max w1) = 2) by (vm_compute; reflexivity).
    rewrite E. lia.
  - by split.
Defined.

Lemma sync_marks_dirty_only_witness :
  disk (snd (run 8 false noReset accept fuel file ["prog"; "sync"])) = file.
Proof.
  pose (w1 := snd (startup 8 false accept fuel false (initial false file))).
  destruct (sync_marks_dirty_only 8 false noReset accept fuel file
              ["prog"; "sync"] w1) as (_ & _ & _ & _ & H & _).
  - vm_compute. reflexivity.
  - vm_compute. reflexivity.
  - vm_compute. reflexivity.
  - exact H.
Defined.


(** ** More of [main] on the concrete installation *)

Lemma wrong_argument_count_only_reports_witness :
  fst (run 8 false noReset accept fuel file ["prog"; "set"; "1"]) = Ok tt /\
  disk (snd (run 8 false noReset accept fuel file ["prog"; "set"; "1"])) = file.
Proof.
  pose (w1 := snd (startup 8 false accept fuel false (initial false file))).
  destruct (wrong_argument_count_only_reports 8 false noReset accept fuel file
              ["prog"; "set"; "1"] w1 4) as (H & Hd & _).
  - vm_compute. reflexivity.
  - vm_compute. reflexivity.
  - vm_compute. reflexivity.
  - vm_compute. discriminate.
  - split; [| exact Hd]. rewrite H. reflexivity.
Defined.

Lemma unknown_command_only_reports_witness :
  fst (run 8 false noReset accept fuel file ["prog"; "on"; "1"]) = Ok tt /\
  disk (snd (run 8 false noReset accept fuel file ["prog"; "on"; "1"])) = file.
Proof.
  pose (w1 := snd (startup 8 false accept fuel false (initial false file))).
  destruct (unknown_command_only_reports 8 false noReset accept fuel file
              ["prog"; "on"; "1"] w1) as (H & Hd & _).
  - vm_compute. reflexivity.
  - vm_compute. reflexivity.
  - change (cmdOn ∉ known_commands). unfold known_commands.
    rewrite !elem_of_cons, elem_of_nil.
    intros [E | [E | [E | [E | [E | E]]]]]; done.
  - split; [| exact Hd]. rewrite H. reflexivity.
Defined.

Lemma no_command_flushes_loaded_state_witness :
  bus (snd (run 8 false noReset accept fuel file ["prog"; "-v"]))
  = [WriteAll [mkFrame None 8 false; mkFrame (Some 7) 3 false]].
Proof.
  pose (w1 := snd (startup 8 false accept fuel true (initial false file))).
  destruct (no_command_flushes_loaded_state 8 false noReset accept fuel file
              ["prog"; "-v"] w1) as (H & _).
  - vm_compute. reflexivity.
  - vm_compute. discriminate.
  - rewrite H. vm_compute. reflexivity.
Defined.

Lemma reset_saves_nothing_witness :
  disk (snd (run 8 false noReset accept fuel file ["prog"; "reset"; "now"]))
  = file.
Proof.
  pose (w1 := snd (startup 8 false accept fuel false (initial false file))).
  destruct (reset_saves_nothing 8 false noReset accept fuel file
              ["prog"; "reset"; "now"] w1) as (_ & H & _).
  - vm_compute. reflexivity.
  - vm_compute. reflexivity.
  - vm_compute. reflexivity.
  - exact H.
Defined.

Lemma early_return_is_minus_one_witness :
  EvSendData
  ∉ trace (snd (run 8 false noReset accept fuel file
                    ["prog"; "brightness"; "1"; "99"])).
Proof.
  destruct (early_return_is_minus_one 8 false noReset accept fuel file
              ["prog"; "brightness"; "1"; "99"] (-1)) as (_ & _ & H).
  - vm_compute. reflexivity.
  - exact H.
Defined.


Lemma moduleName_injective_witness : moduleName 0 <> "interface:spi-0".
Proof.
  apply (moduleName_injective 0 1); unfold INT_MIN, INT_MAX; lia.
Defined.

Lemma typed_number_names_section_witness :
  moduleName (module_arg ["prog"; "set"; "12"; "5"]) = "display:12".
Proof.
  destruct (typed_number_names_section ["prog"; "set"; "12"; "5"] 12)
    as [_ H].
  - unfold INT_MAX. lia.
  - vm_compute. reflexivity.
  - exact H.
Defined.

Lemma numbers_read_leniently_witness :
  requested ["prog"; "set"; "2nd"; "42 apples"] = Some (1, SetTo 42).
Proof.
  apply (numbers_read_leniently ["prog"; "set"; "2nd"; "42 apples"]
           2 42 "nd" " apples").
  - reflexivity.
  - reflexivity.
  - vm_compute. reflexivity.
  - vm_compute. reflexivity.
  - vm_compute. reflexivity.
  - vm_compute. reflexivity.
  - unfold INT_MIN, INT_MAX. lia.
  - unfold INT_MIN, INT_MAX. lia.
Defined.

Lemma nonpositive_module_refused_witness :
  fst (command noReset accept "prog" ["prog"; "clear"; "first"]
               (initial false file))
  = Return (-1).
Proof.
  destruct (nonpositive_module_refused noReset accept "prog"
              ["prog"; "clear"; "first"] (initial false file) (-1) Cleared)
    as [H _].
  - vm_compute. reflexivity.
  - assert (E : atoi (arg ["prog"; "clear"; "first"] 2) = 0)
      by (vm_compute; reflexivity).
    rewrite E. unfold INT_MIN. lia.
  - rewrite H. reflexivity.
Defined.

Lemma mutation_touches_one_module_witness :
  configured_count
    (disk (snd (run 8 false noReset accept fuel file
                    ["prog"; "brightness"; "1"; "15"])))
  = configured_count file.
Proof.
  pose (w1 := snd (startup 8 false accept fuel false (initial false file))).
  destruct (mutation_touches_one_module 8 false noReset accept fuel file
              ["prog"; "brightness"; "1"; "15"] w1 0 (Brightness 15))
    as (_ & _ & H).
  - vm_compute. reflexivity.
  - vm_compute. reflexivity.
  - assert (E : numDevices (max w1) = 2) by (vm_compute; reflexivity).
    rewrite E. lia.
  - intros level [= <-]. lia.
  - exact H.
Defined.

Lemma counter_wraps_before_count_witness :
  fst (run 8 false noReset accept fuel
           {[ "interface:spi-0" := {[ "modules" := "256" ]} ]}
           ["prog"; "sync"])
  = Diverge.
Proof.
  destruct (counter_wraps_before_count 8 false noReset accept fuel
              {[ "interface:spi-0" := {[ "modules" := "256" ]} ]}
              ["prog"; "sync"] 256) as (_ & _ & _ & _ & H).
  - vm_compute. reflexivity.
  - lia.
  - apply H. intros j. apply lookup_singleton_ne.
    intros E. symmetry in E. by apply moduleName_not_interface in E.
Defined.

Lemma loads_follow_the_sections_witness :
  exists calls,
    trace (snd (startup 8 false accept fuel false (initial false file)))
    = setup_calls false ++ calls ++
      [EvLoadState "display:2" 1; EvSetClean].
Proof.
  pose (w1 := snd (startup 8 false accept fuel false (initial false file))).
  destruct (loads_follow_the_sections 8 false accept fuel false file w1)
    as (_ & calls & _ & H).
  - vm_compute. reflexivity.
  - exists calls.
    change (trace w1 = setup_calls false ++ calls ++
                       [EvLoadState "display:2" 1; EvSetClean]).
    rewrite H. do 2 f_equal.
Defined.



Lemma set_value_is_loaded_next_run_witness :
  modules
    (max (snd (startup 8 false accept fuel true
                 (initial false
                    (disk (snd (run 8 false noReset accept fuel file
                                    ["prog"; "set"; "1"; "42"])))))))
    !! 0%nat
  = Some (mkModule (Some 42) true 8 true false).
Proof.
  pose (w1 := snd (startup 8 false accept fuel false (initial false file))).
  pose (w1' := snd (startup 8 false accept fuel true
                      (initial false
                         (disk (snd (run 8 false noReset accept fuel file
                                         ["prog"; "set"; "1"; "42"])))))).
  apply (set_value_is_loaded_next_run 8 false noReset accept fuel file
           ["prog"; "set"; "1"; "42"] w1 0 42 (defaultModule 8)
           fuel true w1').
  - vm_compute. reflexivity.
  - vm_compute. reflexivity.
  - assert (E : numDevices (max w1) = 2) by (vm_compute; reflexivity).
    rewrite E. lia.
  - vm_compute. reflexivity.
  - vm_compute. reflexivity.
Defined.
